(** * Mingleo real-time hub: a shallow embedding of the WebSocket handlers

    The development follows the routes module (src/unnamed/part_001,
    [registerRoutes]: the [wss.on('connection')] handler,
    [handleSearchQuery], [sendFriendSuggestions]; cited below as
    routes:line),
    [server/storage.ts] ([searchUsers], [getSuggestions],
    [updateContactStatus]) and [server/ai-chat-bot.ts]
    ([initPeriodicMessages]).

    Conventions.
    - A parsed frame is a JSON object; JSON numbers are the integers the
      identifiers are.
    - Every [ws.send] is recorded in the hub's [outbox] together with the
      [readyState] the socket had when [send] was called.
    - An [await] on a storage call suspends the handler: the continuation is
      kept in [pending] and runs when the environment settles the call. *)

From Stdlib Require Import List ZArith String Ascii Bool Arith Lia QArith Qround.
Import ListNotations.
Set Warnings "-register-all".
Local Open Scope string_scope.
Local Open Scope Z_scope.

(** ** JavaScript values *)

Inductive jsval : Type :=
| JUndef
| JNull
| JBool (b : bool)
| JNum (n : Z)
| JStr (s : string)
| JArr (items : list jsval)
| JObj (fields : list (string * jsval)).

(** A plain object: own properties in insertion order. *)
Definition obj : Type := list (string * jsval).

(** [o.k]: the value of the property, [undefined] when it is absent. *)
Fixpoint obj_get (k : string) (o : obj) : jsval :=
  match o with
  | [] => JUndef
  | (k', v) :: o' => if String.eqb k k' then v else obj_get k o'
  end.

(** [o.k = v]: overwrites in place, or appends a new property. *)
Fixpoint obj_set (k : string) (v : jsval) (o : obj) : obj :=
  match o with
  | [] => [(k, v)]
  | (k', v') :: o' =>
      if String.eqb k k' then (k', v) :: o' else (k', v') :: obj_set k v o'
  end.

(** [const { k, ...rest } = o]: the object without property [k]. *)
Definition obj_remove (k : string) (o : obj) : obj :=
  filter (fun kv => negb (String.eqb k (fst kv))) o.

(** ToBoolean. Objects and arrays are always truthy. *)
Definition truthy (v : jsval) : bool :=
  match v with
  | JUndef | JNull => false
  | JBool b => b
  | JNum n => negb (n =? 0)
  | JStr s => negb (String.eqb s "")
  | JArr _ | JObj _ => true
  end.

(** [a === b]. On objects and arrays strict equality is reference identity:
    two values parsed from different frames are never the same reference, so
    the comparison of object-valued identifiers is false. *)
Definition strict_eq (a b : jsval) : bool :=
  match a, b with
  | JUndef, JUndef => true
  | JNull, JNull => true
  | JBool x, JBool y => Bool.eqb x y
  | JNum x, JNum y => x =? y
  | JStr x, JStr y => String.eqb x y
  | _, _ => false
  end.

(** Does the property name [k] occur anywhere inside the value? *)
Fixpoint mentions (k : string) (v : jsval) : bool :=
  match v with
  | JArr items => existsb (mentions k) items
  | JObj fields =>
      existsb (fun kv : string * jsval =>
                 let (k', v') := kv in String.eqb k k' || mentions k v')
              fields
  | _ => false
  end.

(** ** Connections *)

(** A WebSocket object, identified by the order in which it was accepted. *)
Definition conn : Type := nat.

Inductive readyState : Type := CONNECTING | OPEN | CLOSING | CLOSED.

Definition is_open (s : readyState) : bool :=
  match s with OPEN => true | _ => false end.

(** The value stored in the [clients] map by the [auth] branch. *)
Record ClientInfo : Type := mkClientInfo {
  userId : jsval;
  username : jsval
}.

Definition info_to_js (i : ClientInfo) : jsval :=
  JObj [("userId", userId i); ("username", username i)].

(** One call of [ws.send(JSON.stringify(body))]. *)
Record sent : Type := mkSent {
  to : conn;
  state_at_send : readyState;
  body : jsval
}.

(** ** Storage rows and the database engine *)

Record User : Type := mkUser {
  id : Z;
  user_username : string;
  password : string;
  firstName : option string;
  lastName : option string;
  email : option string;
  profilePicture : option string;
  bio : option string;
  status : option string;
  lastActive : option string;
  createdAt : string
}.

Definition nullable (s : option string) : jsval :=
  match s with Some x => JStr x | None => JNull end.

(** The row object drizzle returns for the [users] table. *)
Definition row_of_user (u : User) : obj :=
  [ ("id", JNum (id u));
    ("username", JStr (user_username u));
    ("password", JStr (password u));
    ("firstName", nullable (firstName u));
    ("lastName", nullable (lastName u));
    ("email", nullable (email u));
    ("profilePicture", nullable (profilePicture u));
    ("bio", nullable (bio u));
    ("status", nullable (status u));
    ("lastActive", nullable (lastActive u));
    ("createdAt", JStr (createdAt u)) ].

Record Contact : Type := mkContact {
  contact_id : Z;
  contact_userId : Z;
  contact_contactId : Z;
  contact_status : option string;
  contact_createdAt : string
}.

(** The statements the hub's storage calls issue. *)
Inductive users_query : Type :=
| SelectUsers (limit : nat)
| SelectUsersLike (pattern : string) (limit : nat)
| SelectUsersNe (uid : jsval) (limit : nat).

(** The database as the hub sees it when a call settles: each statement
    returns rows or fails ([None]). *)
Record Engine : Type := mkEngine {
  run_users : users_query -> option (list User);
  run_update_contact : jsval -> jsval -> option (list Contact)
}.

(** ** Suspended storage calls *)

Inductive task : Type :=
| SearchTask (ws : conn) (clientInfo : ClientInfo) (query : jsval)
| SuggestTask (ws : conn) (uid : jsval)
| ContactTask (ws : conn) (clientInfo : ClientInfo) (contactId stat : jsval).

(** ** Hub state *)

Record Hub : Type := mkHub {
  sockets : list (conn * readyState);
  wss_clients : list conn;
  clients : list (conn * ClientInfo);
  pending : list task;
  outbox : list sent;
  console_errors : list string;
  clock_reads : nat;
  ids_made : nat
}.

Definition hub0 : Hub := mkHub [] [] [] [] [] [] 0 0.

Definition with_sockets (v : list (conn * readyState)) (h : Hub) : Hub :=
  mkHub v (wss_clients h) (clients h) (pending h) (outbox h)
        (console_errors h) (clock_reads h) (ids_made h).
Definition with_wss_clients (v : list conn) (h : Hub) : Hub :=
  mkHub (sockets h) v (clients h) (pending h) (outbox h)
        (console_errors h) (clock_reads h) (ids_made h).
Definition with_clients (v : list (conn * ClientInfo)) (h : Hub) : Hub :=
  mkHub (sockets h) (wss_clients h) v (pending h) (outbox h)
        (console_errors h) (clock_reads h) (ids_made h).
Definition with_pending (v : list task) (h : Hub) : Hub :=
  mkHub (sockets h) (wss_clients h) (clients h) v (outbox h)
        (console_errors h) (clock_reads h) (ids_made h).
Definition with_outbox (v : list sent) (h : Hub) : Hub :=
  mkHub (sockets h) (wss_clients h) (clients h) (pending h) v
        (console_errors h) (clock_reads h) (ids_made h).
Definition with_console_errors (v : list string) (h : Hub) : Hub :=
  mkHub (sockets h) (wss_clients h) (clients h) (pending h) (outbox h)
        v (clock_reads h) (ids_made h).
Definition with_clock_reads (v : nat) (h : Hub) : Hub :=
  mkHub (sockets h) (wss_clients h) (clients h) (pending h) (outbox h)
        (console_errors h) v (ids_made h).
Definition with_ids_made (v : nat) (h : Hub) : Hub :=
  mkHub (sockets h) (wss_clients h) (clients h) (pending h) (outbox h)
        (console_errors h) (clock_reads h) v.

(** [ws.readyState]; a socket the hub never saw counts as closed. *)
Fixpoint lookup_state (c : conn) (l : list (conn * readyState)) : readyState :=
  match l with
  | [] => CLOSED
  | (c', s) :: l' => if Nat.eqb c c' then s else lookup_state c l'
  end.

Definition ready (h : Hub) (c : conn) : readyState :=
  lookup_state c (sockets h).

Fixpoint set_state (c : conn) (s : readyState) (l : list (conn * readyState))
  : list (conn * readyState) :=
  match l with
  | [] => [(c, s)]
  | (c', s') :: l' =>
      if Nat.eqb c c' then (c', s) :: l' else (c', s') :: set_state c s l'
  end.

(** [clients.get(ws)] *)
Fixpoint clients_get (c : conn) (m : list (conn * ClientInfo))
  : option ClientInfo :=
  match m with
  | [] => None
  | (c', i) :: m' => if Nat.eqb c c' then Some i else clients_get c m'
  end.

(** [clients.set(ws, info)]: a Map keeps the position of an existing key. *)
Fixpoint clients_set (c : conn) (i : ClientInfo) (m : list (conn * ClientInfo))
  : list (conn * ClientInfo) :=
  match m with
  | [] => [(c, i)]
  | (c', i') :: m' =>
      if Nat.eqb c c' then (c', i) :: m' else (c', i') :: clients_set c i m'
  end.

(** [clients.delete(ws)] *)
Definition clients_delete (c : conn) (m : list (conn * ClientInfo))
  : list (conn * ClientInfo) :=
  filter (fun e => negb (Nat.eqb c (fst e))) m.

(** [ws.send(JSON.stringify(body))] *)
Definition ws_send (c : conn) (b : jsval) (h : Hub) : Hub :=
  with_outbox (outbox h ++ [mkSent c (ready h c) b]) h.

(** [console.error(msg, ...)] *)
Definition console_error (msg : string) (h : Hub) : Hub :=
  with_console_errors (console_errors h ++ [msg]) h.

(** [collection.forEach(f)] with the hub threaded through the callback. *)
Fixpoint forEach {A : Type} (l : list A) (f : A -> Hub -> Hub) (h : Hub) : Hub :=
  match l with
  | [] => h
  | x :: l' => forEach l' f (f x h)
  end.

(** ** The handlers *)

Inductive frame : Type :=
| Unparsable              (* [JSON.parse] throws, or the frame is [null] *)
| Parsed (data : obj).

Section Handlers.

(** The wall clock: [clock k] is what the [k]-th
    [new Date().toISOString()] of the process returns. *)
Variable clock : nat -> string.

(** [fresh_messageId k] is the [k]-th identifier built from
    [Date.now()] and [Math.random()] at routes:166. *)
Variable fresh_messageId : nat -> string.

(** [String.prototype.trim] and [String.prototype.toLowerCase]. *)
Variable js_trim : string -> string.
Variable js_toLowerCase : string -> string.

Definition toISOString (h : Hub) : string * Hub :=
  (clock (clock_reads h), with_clock_reads (S (clock_reads h)) h).

(** *** storage.ts *)

(** [DatabaseStorage.searchUsers]; [None] is a rejected promise. A truthy
    query that is not a string has no [trim] method. *)
Definition searchUsers (query : jsval) (db : Engine) : option (list User) :=
  if negb (truthy query) then run_users db (SelectUsers 50)
  else
    match query with
    | JStr s =>
        if String.eqb (js_trim s) "" then run_users db (SelectUsers 50)
        else
          let lowerCaseQuery := js_toLowerCase s in
          run_users db (SelectUsersLike ("%" ++ lowerCaseQuery ++ "%") 20)
    | _ => None
    end.

(** [DatabaseStorage.getSuggestions]: the [catch] turns a failure into the
    empty list (the flag records the [console.error]). *)
Definition getSuggestions (uid : jsval) (db : Engine) : list obj * bool :=
  match run_users db (SelectUsersNe uid 10) with
  | Some allUsers =>
      (map (fun user => obj_remove "password" (row_of_user user)) allUsers,
       false)
  | None => ([], true)
  end.

(** [DatabaseStorage.updateContactStatus]: first returned row, if any. *)
Definition updateContactStatus (cid stat : jsval) (db : Engine)
  : option (option Contact) :=
  match run_update_contact db cid stat with
  | Some rows => Some (hd_error rows)
  | None => None
  end.

(** *** registerRoutes: continuations of the asynchronous helpers *)

Definition search_results (query : jsval) (results : list User) : jsval :=
  JObj [ ("type", JStr "search-results");
         ("query", query);
         ("results", JArr (map (fun u => JObj (row_of_user u)) results)) ].

Definition search_error : jsval :=
  JObj [ ("type", JStr "error");
         ("message", JStr "Error processing search query") ].

(** [handleSearchQuery] after [await storage.searchUsers(query)]. *)
Definition handleSearchQuery (ws : conn) (clientInfo : ClientInfo)
           (query : jsval) (db : Engine) (h : Hub) : Hub :=
  match searchUsers query db with
  | Some searchResults =>
      let filteredResults :=
        filter (fun user =>
                  negb (strict_eq (JNum (id user)) (userId clientInfo)))
               searchResults in
      if is_open (ready h ws)
      then ws_send ws (search_results query (firstn 5 filteredResults)) h
      else h
  | None =>
      let h := console_error "Error handling search query:" h in
      if is_open (ready h ws) then ws_send ws search_error h else h
  end.

(** [sendFriendSuggestions] after [await storage.getSuggestions(userId)]. *)
Definition sendFriendSuggestions (ws : conn) (uid : jsval) (db : Engine)
           (h : Hub) : Hub :=
  let (suggestions, failed) := getSuggestions uid db in
  let h := if failed
           then console_error "Error getting user suggestions:" h else h in
  if is_open (ready h ws)
  then ws_send ws (JObj [ ("type", JStr "friend-suggestions");
                          ("suggestions",
                           JArr (map JObj (firstn 5 suggestions))) ]) h
  else h.

Definition contact_status_changed (c : Contact) (by_user : jsval)
           (t : string) : jsval :=
  JObj [ ("type", JStr "contact-status-changed");
         ("contactId", JNum (contact_id c));
         ("status", nullable (contact_status c));
         ("updatedBy", by_user);
         ("timestamp", JStr t) ].

Definition contact_status_error : jsval :=
  JObj [ ("type", JStr "error");
         ("message", JStr "Failed to update contact status");
         ("errorCode", JStr "CONTACT_STATUS_UPDATE_FAILED") ].

(** The [contact-status-update] case after
    [await storage.updateContactStatus(...)]. *)
Definition contact_status_update (ws : conn) (clientInfo : ClientInfo)
           (cid stat : jsval) (db : Engine) (h : Hub) : Hub :=
  match updateContactStatus cid stat db with
  | Some (Some updatedContact) =>
      forEach (wss_clients h)
        (fun client h =>
           match clients_get client (clients h) with
           | Some clientData =>
               if is_open (ready h client)
                  && (strict_eq (userId clientData) (userId clientInfo)
                      || strict_eq (userId clientData)
                           (JNum (contact_contactId updatedContact)))
               then
                 let (t, h) := toISOString h in
                 ws_send client
                   (contact_status_changed updatedContact
                      (userId clientInfo) t) h
               else h
           | None => h
           end) h
  | Some None => h
  | None =>
      let h := console_error "Error updating contact status:" h in
      ws_send ws contact_status_error h
  end.

Definition resume (t : task) (db : Engine) (h : Hub) : Hub :=
  match t with
  | SearchTask ws clientInfo query => handleSearchQuery ws clientInfo query db h
  | SuggestTask ws uid => sendFriendSuggestions ws uid db h
  | ContactTask ws clientInfo cid stat =>
      contact_status_update ws clientInfo cid stat db h
  end.

Definition spawn (t : task) (h : Hub) : Hub :=
  with_pending (pending h ++ [t]) h.

(** *** registerRoutes: the listeners *)

(** The loop shared by the directed cases: every open client whose entry
    in [clients] carries the wanted [userId]. *)
Definition send_to_user (target : jsval) (payload : jsval) (h : Hub) : Hub :=
  forEach (wss_clients h)
    (fun client h =>
       match clients_get client (clients h) with
       | Some clientData =>
           if is_open (ready h client)
              && strict_eq (userId clientData) target
           then ws_send client payload h
           else h
       | None => h
       end) h.

(** The loop shared by [user-online], [user-offline] and the default
    case: every open client other than [ws]. *)
Definition send_to_others (ws : conn) (payload : jsval) (h : Hub) : Hub :=
  forEach (wss_clients h)
    (fun client h =>
       if negb (Nat.eqb client ws) && is_open (ready h client)
       then ws_send client payload h
       else h) h.

Definition presence (kind : string) (uid uname : jsval) : jsval :=
  JObj [ ("type", JStr kind); ("userId", uid); ("username", uname) ].

(** The [auth] branch (routes:92-123). The new entry of [ws] itself
    always fails [client.userId !== data.userId]. *)
Definition on_auth (ws : conn) (data : obj) (h : Hub) : Hub :=
  let info := mkClientInfo (obj_get "userId" data) (obj_get "username" data) in
  let h := with_clients (clients_set ws info (clients h)) h in
  let h := send_to_others ws
             (presence "user-online" (userId info) (username info)) h in
  let onlineUsers :=
    filter (fun e =>
              truthy (userId (snd e))
              && negb (Nat.eqb (fst e) ws
                       || strict_eq (userId (snd e)) (userId info)))
           (clients h) in
  let h := ws_send ws
             (JObj [ ("type", JStr "online-users");
                     ("users",
                      JArr (map (fun e => info_to_js (snd e)) onlineUsers)) ])
             h in
  spawn (SuggestTask ws (userId info)) h.

Definition ack_envelope (messageId : jsval) (t : string) : jsval :=
  JObj [ ("type", JStr "ack");
         ("messageId", messageId);
         ("timestamp", JStr t) ].

(** The acknowledgment branch (routes:145-162). *)
Definition relay_ack (data : obj) (h : Hub) : Hub :=
  if truthy (obj_get "originalSenderId" data) then
    forEach (wss_clients h)
      (fun client h =>
         match clients_get client (clients h) with
         | Some clientData =>
             if is_open (ready h client)
                && strict_eq (userId clientData)
                     (obj_get "originalSenderId" data)
             then
               let (t, h) := toISOString h in
               ws_send client (ack_envelope (obj_get "messageId" data) t) h
             else h
         | None => h
         end) h
  else h.

(** The [switch (data.type)] (routes:173-345). *)
Definition dispatch (ws : conn) (clientInfo : ClientInfo)
           (data enrichedData : obj) (h : Hub) : Hub :=
  let field k := obj_get k data in
  let type_is t := strict_eq (field "type") (JStr t) in
  if type_is "direct-message" then
    if truthy (field "targetUserId")
    then send_to_user (field "targetUserId") (JObj enrichedData) h else h
  else if type_is "typing-indicator" then
    if truthy (field "targetUserId")
    then send_to_user (field "targetUserId") (JObj enrichedData) h else h
  else if type_is "like-post" then
    if truthy (field "postId") && truthy (field "ownerId")
    then send_to_user (field "ownerId") (JObj enrichedData) h else h
  else if type_is "like-story" then
    if truthy (field "storyId") && truthy (field "ownerId")
    then send_to_user (field "ownerId") (JObj enrichedData) h else h
  else if type_is "like-reel" then
    if truthy (field "reelId") && truthy (field "ownerId")
    then send_to_user (field "ownerId") (JObj enrichedData) h else h
  else if type_is "comment" then
    if truthy (field "contentId") && truthy (field "contentType")
       && truthy (field "ownerId")
    then send_to_user (field "ownerId") (JObj enrichedData) h else h
  else if type_is "follow-request" then
    if truthy (field "targetUserId")
    then send_to_user (field "targetUserId") (JObj enrichedData) h else h
  else if type_is "follow-accept" then
    if truthy (field "targetUserId")
    then send_to_user (field "targetUserId") (JObj enrichedData) h else h
  else if type_is "search-query" then
    if truthy (field "query")
    then spawn (SearchTask ws clientInfo (field "query")) h else h
  else if type_is "contact-status-update" then
    if truthy (field "contactId") && truthy (field "status")
    then spawn (ContactTask ws clientInfo (field "contactId")
                            (field "status")) h
    else h
  else send_to_others ws (JObj enrichedData) h.

(** [enrichedData] as it stands when the [switch] is reached
    (routes:136-170). *)
Definition enrich (clientInfo : ClientInfo) (data : obj) (h : Hub)
  : obj * Hub :=
  let enrichedData := obj_set "sender" (info_to_js clientInfo) data in
  let (enrichedData, h) :=
    if truthy (obj_get "messageId" data) then (enrichedData, h)
    else (obj_set "messageId" (JStr (fresh_messageId (ids_made h)))
                  enrichedData,
          with_ids_made (S (ids_made h)) h) in
  (obj_set "originalSenderId" (userId clientInfo) enrichedData, h).

Definition not_authenticated : jsval :=
  JObj [ ("type", JStr "error"); ("message", JStr "Not authenticated") ].

(** [ws.on('message', ...)] (routes:87-349). *)
Definition on_message (ws : conn) (message : frame) (h : Hub) : Hub :=
  match message with
  | Unparsable => console_error "WebSocket message error:" h
  | Parsed data =>
      if strict_eq (obj_get "type" data) (JStr "auth") then on_auth ws data h
      else
        match clients_get ws (clients h) with
        | None => ws_send ws not_authenticated h
        | Some clientInfo =>
            if strict_eq (obj_get "type" data) (JStr "ack")
               && truthy (obj_get "messageId" data)
            then relay_ack data h
            else
              let (enrichedData, h) := enrich clientInfo data h in
              dispatch ws clientInfo data enrichedData h
        end
  end.

(** [ws.on('close', ...)] (routes:352-369). *)
Definition on_close (ws : conn) (h : Hub) : Hub :=
  let h :=
    match clients_get ws (clients h) with
    | Some clientInfo =>
        if truthy (userId clientInfo)
        then send_to_others ws
               (presence "user-offline" (userId clientInfo)
                         (username clientInfo)) h
        else h
    | None => h
    end in
  with_clients (clients_delete ws (clients h)) h.

(** The tail of [wss.on('connection', ...)] (routes:372). *)
Definition on_connection (ws : conn) (h : Hub) : Hub :=
  let (t, h) := toISOString h in
  ws_send ws (JObj [ ("type", JStr "connection");
                     ("status", JStr "connected");
                     ("time", JStr t) ]) h.

(** *** The event loop *)

Inductive event : Type :=
| Connection (ws : conn)
| Message (ws : conn) (message : frame)
| Closing (ws : conn)
| Close (ws : conn)
| Settle (i : nat) (db : Engine).

Definition mem (c : conn) (l : list conn) : bool := existsb (Nat.eqb c) l.

Definition remove_nth {A : Type} (i : nat) (l : list A) : list A :=
  firstn i l ++ skipn (S i) l.

(** What the [ws] library does around the listeners: a new socket joins
    [wss.clients] open; frames are dispatched while the socket is open;
    on close the socket is [CLOSED] and has left [wss.clients] before the
    hub's [close] listener runs. *)
Definition step (e : event) (h : Hub) : Hub :=
  match e with
  | Connection ws =>
      if mem ws (map fst (sockets h)) then h
      else on_connection ws
             (with_wss_clients (wss_clients h ++ [ws])
                (with_sockets (set_state ws OPEN (sockets h)) h))
  | Message ws message =>
      if mem ws (wss_clients h) && is_open (ready h ws)
      then on_message ws message h else h
  | Closing ws =>
      if mem ws (wss_clients h) && is_open (ready h ws)
      then with_sockets (set_state ws CLOSING (sockets h)) h else h
  | Close ws =>
      if mem ws (wss_clients h)
      then on_close ws
             (with_wss_clients
                (filter (fun c => negb (Nat.eqb c ws)) (wss_clients h))
                (with_sockets (set_state ws CLOSED (sockets h)) h))
      else h
  | Settle i db =>
      match nth_error (pending h) i with
      | Some t => resume t db (with_pending (remove_nth i (pending h)) h)
      | None => h
      end
  end.

Definition run (es : list event) (h : Hub) : Hub :=
  fold_left (fun h e => step e h) es h.

(** The [send] calls an event causes. *)
Definition sent_by (e : event) (h : Hub) : list sent :=
  skipn (List.length (outbox h)) (outbox (step e h)).

End Handlers.

(** ** A concrete environment

    An in-memory engine over a [users] table and a [contacts] table, and
    ASCII versions of the string primitives; the traces below run on it. *)

Definition is_space (c : ascii) : bool :=
  match c with
  | " "%char | "009"%char | "010"%char | "013"%char => true
  | _ => false
  end.

Fixpoint trim_left (s : string) : string :=
  match s with
  | String c s' => if is_space c then trim_left s' else s
  | EmptyString => EmptyString
  end.

Fixpoint string_rev (s acc : string) : string :=
  match s with
  | String c s' => string_rev s' (String c acc)
  | EmptyString => acc
  end.

Definition ascii_trim (s : string) : string :=
  string_rev (trim_left (string_rev (trim_left s) "")) "".

Definition lower_char (c : ascii) : ascii :=
  let n := nat_of_ascii c in
  if (Nat.leb 65 n && Nat.leb n 90)%bool then ascii_of_nat (n + 32) else c.

Fixpoint ascii_lower (s : string) : string :=
  match s with
  | String c s' => String (lower_char c) (ascii_lower s')
  | EmptyString => EmptyString
  end.

Fixpoint is_prefix (p s : string) : bool :=
  match p, s with
  | EmptyString, _ => true
  | String a p', String b s' => Ascii.eqb a b && is_prefix p' s'
  | _, EmptyString => false
  end.

Fixpoint contains (needle hay : string) : bool :=
  is_prefix needle hay
  || match hay with
     | String _ hay' => contains needle hay'
     | EmptyString => false
     end.

(** [LOWER(col) LIKE '%q%'] for a pattern without further wildcards. *)
Definition lower_like (pattern : string) (col : option string) : bool :=
  match col with
  | Some v =>
      contains (substring 1 (String.length pattern - 2) pattern) (ascii_lower v)
  | None => false
  end.

Definition memory_users (tbl : list User) (q : users_query)
  : option (list User) :=
  match q with
  | SelectUsers limit => Some (firstn limit tbl)
  | SelectUsersLike pattern limit =>
      Some (firstn limit
              (filter (fun u =>
                         lower_like pattern (Some (user_username u))
                         || lower_like pattern (firstName u)
                         || lower_like pattern (lastName u)
                         || lower_like pattern (bio u))
                      tbl))
  | SelectUsersNe (JNum n) limit =>
      Some (firstn limit (filter (fun u => negb (id u =? n)) tbl))
  | SelectUsersNe _ _ => None
  end.

Definition memory_db (tbl : list User) (cts : list Contact) : Engine :=
  mkEngine (memory_users tbl)
           (fun cid stat =>
              match cid with
              | JNum n => Some (filter (fun c => contact_id c =? n) cts)
              | _ => None
              end).

(** An engine whose every statement fails. *)
Definition broken_db : Engine :=
  mkEngine (fun _ => None) (fun _ _ => None).

Definition digit (n : nat) : string :=
  String (ascii_of_nat (48 + Nat.modulo n 10)) EmptyString.

Definition sample_clock (k : nat) : string := "2025-01-01T00:00:0" ++ digit k ++ "Z".
Definition sample_id (k : nat) : string := "1735689600000-abc000" ++ digit k.

Definition plain_user (i : Z) (name pw : string) : User :=
  mkUser i name pw None None None None None (Some "online") None
         "2025-01-01T00:00:00.000Z".

Definition sample_users : list User :=
  [ plain_user 1 "alice" "$2b$10$alicehash";
    plain_user 2 "bob" "$2b$10$bobhash";
    plain_user 3 "bobby" "$2b$10$bobbyhash" ].

Definition auth_frame (uid : Z) (name : string) : frame :=
  Parsed [ ("type", JStr "auth"); ("userId", JNum uid); ("username", JStr name) ].

Definition sample_step : event -> Hub -> Hub :=
  step sample_clock sample_id ascii_trim ascii_lower.
Definition sample_run : list event -> Hub -> Hub :=
  run sample_clock sample_id ascii_trim ascii_lower.
Definition sample_sent_by : event -> Hub -> list sent :=
  sent_by sample_clock sample_id ascii_trim ascii_lower.

(** Three connections: user 7 "ann" on connection 1, user 9 "bea" on
    connection 3, connection 2 open and not yet authenticated. *)
Definition hub_one_device : Hub :=
  sample_run [ Connection 1%nat; Connection 2%nat; Connection 3%nat;
               Message 1%nat (auth_frame 7 "ann");
               Message 3%nat (auth_frame 9 "bea") ] hub0.

(** The same after "ann" authenticates on connection 2 as well. *)
Definition hub_two_devices : Hub :=
  sample_step (Message 2%nat (auth_frame 7 "ann")) hub_one_device.

Definition ann : ClientInfo := mkClientInfo (JNum 7) (JStr "ann").
Definition bea : ClientInfo := mkClientInfo (JNum 9) (JStr "bea").

Definition direct_message (target : Z) (content : string) : obj :=
  [ ("type", JStr "direct-message"); ("targetUserId", JNum target);
    ("content", JStr content) ].

Definition ack_of (messageId : string) (originalSenderId : Z) : obj :=
  [ ("type", JStr "ack"); ("messageId", JStr messageId);
    ("originalSenderId", JNum originalSenderId) ].

Definition bare_ack (originalSenderId : Z) : obj :=
  [ ("type", JStr "ack"); ("originalSenderId", JNum originalSenderId) ].

Definition search_query (query : string) : obj :=
  [ ("type", JStr "search-query"); ("query", JStr query) ].

Definition contact_update (contactId : Z) (stat : string) : obj :=
  [ ("type", JStr "contact-status-update"); ("contactId", JNum contactId);
    ("status", JStr stat) ].

(** ** ai-chat-bot.ts: the periodic-message timer *)

Module Bot.




Section Timer.

(** [random k] is what the [k]-th call of [Math.random()] returns. *)
Variable random : nat -> Q.






End Timer.


End Bot.

(** ** Vocabulary of the statements *)

(** The [send] calls made between two hub states. *)
Definition new_sends (h h' : Hub) : list sent :=
  skipn (List.length (outbox h)) (outbox h').

(** [c] is an open client other than [ws]. *)
Definition other_open (h : Hub) (ws c : conn) : bool :=
  negb (Nat.eqb c ws) && is_open (ready h c).

(** [c] is open and its entry in [clients] carries the user id [uid]. *)
Definition open_bound_to (h : Hub) (uid : jsval) (c : conn) : bool :=
  match clients_get c (clients h) with
  | Some clientData => is_open (ready h c) && strict_eq (userId clientData) uid
  | None => false
  end.

(** The connections currently bound to the user id [uid]. *)
Definition bound_connections (h : Hub) (uid : jsval) : list conn :=
  map fst (filter (fun e => strict_eq (userId (snd e)) uid) (clients h)).

(** One delivery of [payload] to each of [cs]. *)
Definition deliveries (payload : jsval) (cs : list conn) : list sent :=
  map (fun c => mkSent c OPEN payload) cs.

(** Deliveries whose payload carries a fresh clock reading each. *)
Fixpoint stamped (clock : nat -> string) (mk : string -> jsval) (k : nat)
         (cs : list conn) : list sent :=
  match cs with
  | [] => []
  | c :: cs' => mkSent c OPEN (mk (clock k)) :: stamped clock mk (S k) cs'
  end.

(** The snapshot sent to a connection that authenticates. *)
Definition online_users (ws : conn) (info : ClientInfo)
           (m : list (conn * ClientInfo)) : jsval :=
  JObj [ ("type", JStr "online-users");
         ("users",
          JArr (map (fun e => info_to_js (snd e))
                  (filter (fun e =>
                             truthy (userId (snd e))
                             && negb (Nat.eqb (fst e) ws
                                      || strict_eq (userId (snd e))
                                           (userId info)))
                          m))) ].

(** [h'] differs from [h] by work that leaves the sockets and [wss.clients]
    alone and only calls [send] on sockets that are open. *)
Definition guarded (h h' : Hub) : Prop :=
  sockets h' = sockets h /\ wss_clients h' = wss_clients h
  /\ exists l, outbox h' = (outbox h ++ l)%list
               /\ Forall (fun s => state_at_send s = OPEN) l.

(** The registry is well formed: [wss.clients] is a set, none of its
    members is closed, and only its members have an identity binding. *)
Definition well_formed (h : Hub) : Prop :=
  NoDup (wss_clients h)
  /\ (forall c, In c (wss_clients h) -> ready h c = OPEN \/ ready h c = CLOSING)
  /\ (forall c, In c (map fst (clients h)) -> In c (wss_clients h)).

(** ** More vocabulary *)

(** The [case] labels of the [switch] at routes:173-336. *)
Definition handled_types : list string :=
  [ "direct-message"; "typing-indicator"; "like-post"; "like-story";
    "like-reel"; "comment"; "follow-request"; "follow-accept";
    "search-query"; "contact-status-update" ].

(** The values [===] compares by what they hold. Objects and arrays are
    compared by reference, so one stored value met again is equal to itself
    where [strict_eq] answers [false]: statements about loops that compare
    a stored identifier with itself are made for primitive identifiers. *)
Definition primitive (v : jsval) : bool :=
  match v with
  | JArr _ | JObj _ => false
  | _ => true
  end.

(** An engine that honours the [LIMIT] of the statements it runs. *)
Definition limit_of (q : users_query) : nat :=
  match q with
  | SelectUsers n => n
  | SelectUsersLike _ n => n
  | SelectUsersNe _ n => n
  end.

Definition honours_limit (db : Engine) : Prop :=
  forall q rows, run_users db q = Some rows ->
                 (List.length rows <= limit_of q)%nat.


(** ** The HTTP routes that write into the hub *)

(** [res.status(code).json(body)]; [res.json] alone answers 200. *)
Record Response : Type := mkResponse {
  status_code : nat;
  json : jsval
}.

Definition unauthorized : Response :=
  mkResponse 401 (JObj [ ("message", JStr "Unauthorized") ]).




Section Routes.

Variable js_trim : string -> string.
Variable js_toLowerCase : string -> string.

(** [GET /api/users/search] (routes:1073-1109), from the point where
    [storage.searchUsers] settles. [req_user] is [req.user] of an
    authenticated request, [q] the query parameter of that name. *)
Definition api_users_search (req_user : option User) (q : option string)
           (db : Engine) (h : Hub) : Response * Hub :=
  match req_user with
  | None => (unauthorized, h)
  | Some me =>
      let query := match q with Some s => s | None => "" end in
      if String.eqb query "" || String.eqb (js_trim query) ""
      then (mkResponse 200 (JArr []), h)
      else
        match searchUsers js_trim js_toLowerCase (JStr query) db with
        | Some users =>
            let filteredUsers :=
              filter (fun user => negb (id user =? id me)) users in
            let h :=
              send_to_user (JNum (id me))
                (search_results (JStr query) (firstn 5 filteredUsers)) h in
            (mkResponse 200
               (JArr (map (fun u => JObj (row_of_user u)) filteredUsers)),
             h)
        | None =>
            (mkResponse 500
               (JObj [ ("message", JStr "Failed to search users") ]),
             console_error "Search error:" h)
        end
  end.




End Routes.

(** ** The hourly sweep of expired stories *)

Section Sweep.

Variable clock : nat -> string.

Definition stories_cleanup_event (count : nat) (t : string) : jsval :=
  JObj [ ("type", JStr "stories-cleanup");
         ("count", JNum (Z.of_nat count));
         ("timestamp", JStr t) ].

(** The [setInterval] callback at routes:1469-1490, from the point where
    [storage.deleteExpiredStories] settles with a count ([None]: it
    failed). *)
Definition stories_cleanup (deleted : option nat) (h : Hub) : Hub :=
  match deleted with
  | Some deletedCount =>
      if Nat.ltb 0 deletedCount then
        forEach (wss_clients h)
          (fun client h =>
             if is_open (ready h client)
             then
               let (t, h) := toISOString clock h in
               ws_send client (stories_cleanup_event deletedCount t) h
             else h) h
      else h
  | None => console_error "Error cleaning up expired stories:" h
  end.

End Sweep.

(** ** storage.ts: the [stories] table

    The table is the list of its rows, [id] being the primary key; each
    function is the statement sequence of the method, for statements that
    succeed. Timestamps are milliseconds. *)

Record StoryViewer : Type := mkStoryViewer {
  viewer_userId : Z;
  viewer_username : string;
  viewer_profilePicture : string;
  viewedAt : string
}.

Record Story : Type := mkStory {
  story_id : Z;
  story_userId : Z;
  imageUrl : string;
  story_filter : option string;
  aiEnhanced : option bool;
  arEnabled : option bool;
  vrEnabled : option bool;
  filterData : jsval;
  viewers : option (list StoryViewer);
  likes : option Z;
  story_createdAt : Z;
  expiresAt : option Z
}.


Definition with_likes (n : Z) (s : Story) : Story :=
  mkStory (story_id s) (story_userId s) (imageUrl s) (story_filter s)
          (aiEnhanced s) (arEnabled s) (vrEnabled s) (filterData s)
          (viewers s) (Some n) (story_createdAt s) (expiresAt s).

(** [db.select().from(stories).where(eq(stories.id, storyId))] *)
Definition stories_by_id (storyId : Z) (tbl : list Story) : list Story :=
  filter (fun s => story_id s =? storyId) tbl.

(** [db.update(stories).set(...).where(eq(stories.id, storyId))] *)
Definition update_story (storyId : Z) (f : Story -> Story) (tbl : list Story)
  : list Story :=
  map (fun s => if story_id s =? storyId then f s else s) tbl.




(** [DatabaseStorage.likeStory] (storage.ts:323-343): the returned row and
    the table afterwards. The [userId] argument is not used. *)
Definition likeStory (storyId : Z) (uid : Z) (tbl : list Story)
  : option Story * list Story :=
  match hd_error (stories_by_id storyId tbl) with
  | None => (None, tbl)
  | Some story =>
      let likesCount := match likes story with Some n => n | None => 0 end + 1 in
      let tbl' := update_story storyId (with_likes likesCount) tbl in
      (hd_error (stories_by_id storyId tbl'), tbl')
  end.

(** [DatabaseStorage.deleteStory] (storage.ts:345-357). *)
Definition deleteStory (storyId : Z) (uid : Z) (tbl : list Story)
  : bool * list Story :=
  let hit s := (story_id s =? storyId) && (story_userId s =? uid) in
  (match hd_error (filter hit tbl) with Some _ => true | None => false end,
   filter (fun s => negb (hit s)) tbl).

(** [expiresAt IS NOT NULL AND expiresAt < now] *)
Definition expired (now : Z) (s : Story) : bool :=
  match expiresAt s with Some t => t <? now | None => false end.

(** [expiresAt IS NULL OR expiresAt > now], the condition of [getStories]
    (storage.ts:248-258). *)
Definition unexpired (now : Z) (s : Story) : bool :=
  match expiresAt s with Some t => now <? t | None => true end.

(** [DatabaseStorage.deleteExpiredStories] (storage.ts:359-369): the count
    returned and the table afterwards. *)
Definition deleteExpiredStories (now : Z) (tbl : list Story)
  : nat * list Story :=
  (List.length (filter (expired now) tbl),
   filter (fun s => negb (expired now s)) tbl).

(** Sample rows. *)
Definition plain_story (i owner : Z) (expires : option Z) : Story :=
  mkStory i owner "/img.png" None (Some false) (Some false) (Some false)
          JNull (Some []) (Some 0) 1000 expires.

Definition sample_stories : list Story :=
  [ plain_story 1 7 (Some 5000); plain_story 2 7 (Some 9000);
    plain_story 3 9 None; plain_story 4 9 (Some 7000) ].

Definition carl : StoryViewer :=
  mkStoryViewer 9 "bea" "" "2025-01-01T00:00:00.000Z".

(** The properties of an object value. *)
Definition fields (v : jsval) : obj :=
  match v with JObj o => o | _ => [] end.

(** ** ai-chat-bot.ts: one cycle of periodic messages *)

(** What the lookups and the generation for one user came to:
    [storage.getUser] found nobody, a call rejected, or
    [generatePersonalizedMessage] returned a text. *)
Inductive generation : Type :=
| NoUser
| Failed
| Generated (message : string).

Definition assistant_message (message t stamp : string) : jsval :=
  JObj [ ("type", JStr "ai-assistant-message");
         ("message", JStr message);
         ("sender", JObj [ ("userId", JNum 0);
                           ("username", JStr "MingleoAI");
                           ("isBot", JBool true) ]);
         ("timestamp", JStr t);
         ("messageId", JStr ("ai-" ++ stamp)) ].

(** [activeUserIds] (ai-chat-bot.ts:49-55): a [Set] filled from the
    [clients] map, in insertion order. *)
Definition activeUserIds (h : Hub) : list jsval :=
  fold_left
    (fun ids e =>
       if truthy (userId (snd e))
       then if existsb (strict_eq (userId (snd e))) ids then ids
            else (ids ++ [userId (snd e)])%list
       else ids)
    (clients h) [].

Section BotCycle.

Variable clock : nat -> string.

(** [date_now k] is the decimal form of [Date.now()] at the [k]-th reading
    of the wall clock, [js_string] the conversion a template literal
    applies to a value. *)
Variable date_now : nat -> string.
Variable js_string : jsval -> string.

(** The inner [this.clients.forEach] (ai-chat-bot.ts:68-85). *)
Definition deliver_assistant_message (uid : jsval) (message : string)
           (h : Hub) : Hub :=
  forEach (clients h)
    (fun e h =>
       if strict_eq (userId (snd e)) uid then
         if is_open (ready h (fst e)) then
           let k := clock_reads h in
           ws_send (fst e)
             (assistant_message message (clock k) (date_now (S k)))
             (with_clock_reads (S (S k)) h)
         else h
       else h) h.

(** The body of the [for] loop for one user id (ai-chat-bot.ts:59-88). *)
Definition assist_user (uid : jsval) (g : generation) (h : Hub) : Hub :=
  match g with
  | NoUser => h
  | Failed =>
      console_error ("Error sending AI message to user " ++ js_string uid ++ ":")
                    h
  | Generated message => deliver_assistant_message uid message h
  end.

(** [sendPeriodicMessagesToAllUsers] (ai-chat-bot.ts:47-90), run to its end
    with no other event in between; [outcome] tells what the awaited calls
    came to for each user id. *)
Definition sendPeriodicMessagesToAllUsers (outcome : jsval -> generation)
           (h : Hub) : Hub :=
  fold_left (fun h uid => assist_user uid (outcome uid) h) (activeUserIds h) h.

End BotCycle.

(** Who received which assistant text. *)
Definition receipt (s : sent) : conn * jsval :=
  (to s, obj_get "message" (fields (body s))).

(** The connections in [clients] that are open and bound to [uid], in the
    order of the map. *)
Definition open_entries (h : Hub) (uid : jsval) : list conn :=
  map fst (filter (fun e => strict_eq (userId (snd e)) uid
                            && is_open (ready h (fst e)))
                  (clients h)).

(** ** The story-like route *)

Section StoryLike.

Variable clock : nat -> string.

(** [like_id k] is the identifier built from [Date.now()] and
    [Math.random()] at routes:737 when [k] identifiers were generated
    before. *)
Variable like_id : nat -> string.

Definition likes_or_zero (s : Story) : Z :=
  match likes s with Some n => n | None => 0 end.

Definition story_liked (storyId : Z) (me : User) (story : Story) (t : string)
  : jsval :=
  JObj [ ("type", JStr "story-liked");
         ("storyId", JNum storyId);
         ("userId", JNum (id me));
         ("username", JStr (user_username me));
         ("likes", JNum (likes_or_zero story));
         ("timestamp", JStr t) ].

Definition like_notification (ident : string) (me : User) (story : Story)
           (t : string) : jsval :=
  JObj [ ("type", JStr "like-notification");
         ("id", JStr ident);
         ("data",
          JObj [ ("contentType", JStr "story");
                 ("storyId", JNum (story_id story));
                 ("username", JStr (user_username me));
                 ("userId", JNum (id me));
                 ("userAvatar", nullable (profilePicture me));
                 ("timestamp", JStr t) ]) ].

(** [POST /api/stories/:id/like] (routes:716-757), from the point where
    [storage.likeStory] settles: [liked] is what it returned ([None]: the
    call failed). *)
Definition api_story_like (req_user : option User) (storyId : Z)
           (liked : option (option Story)) (h : Hub) : Response * Hub :=
  match req_user with
  | None => (unauthorized, h)
  | Some me =>
      match liked with
      | None =>
          (mkResponse 500 (JObj [ ("message", JStr "Failed to like story") ]),
           h)
      | Some None =>
          (mkResponse 404 (JObj [ ("message", JStr "Story not found") ]), h)
      | Some (Some story) =>
          let h :=
            forEach (wss_clients h)
              (fun client h =>
                 if is_open (ready h client) then
                   let (t, h) := toISOString clock h in
                   let h := ws_send client (story_liked storyId me story t) h in
                   match clients_get client (clients h) with
                   | Some clientInfo =>
                       if strict_eq (userId clientInfo)
                                    (JNum (story_userId story))
                          && negb (story_userId story =? id me)
                       then
                         let ident := like_id (ids_made h) in
                         let h := with_ids_made (S (ids_made h)) h in
                         let (t, h) := toISOString clock h in
                         ws_send client (like_notification ident me story t) h
                       else h
                   | None => h
                   end
                 else h) h in
          (mkResponse 200
             (JObj [ ("success", JBool true);
                     ("likes", JNum (likes_or_zero story)) ]),
           h)
      end
  end.

End StoryLike.

(** Who received which type of envelope. *)
Definition kind (s : sent) : conn * jsval :=
  (to s, obj_get "type" (fields (body s))).

(** [h'] is [h] after work that leaves sockets and bindings alone and whose
    sends, all made on open sockets, read [out] through [proj]. *)
Definition emits {B : Type} (proj : sent -> B) (h h' : Hub) (out : list B)
  : Prop :=
  sockets h' = sockets h /\ clients h' = clients h
  /\ exists l, outbox h' = (outbox h ++ l)%list
               /\ map proj l = out
               /\ Forall (fun s => state_at_send s = OPEN) l.

(** ** More sample data *)

Definition typing_indicator (target : Z) : obj :=
  [ ("type", JStr "typing-indicator"); ("targetUserId", JNum target) ].

Definition like_post (postId owner : Z) : obj :=
  [ ("type", JStr "like-post"); ("postId", JNum postId);
    ("ownerId", JNum owner) ].

(** A frame of a type the [switch] has no case for. *)
Definition reaction (emoji : string) : obj :=
  [ ("type", JStr "reaction"); ("emoji", JStr emoji) ].

Definition auth_of (uid : Z) (name : string) : obj :=
  [ ("type", JStr "auth"); ("userId", JNum uid); ("username", JStr name) ].

(** The contact row 4: user 7 has user 9 as a contact. *)
Definition sample_contacts : list Contact :=
  [ mkContact 4 7 9 (Some "pending") "2025-01-01T00:00:00.000Z" ].


Definition sample_now (k : nat) : string := "173568960000" ++ digit k.

(** The generation succeeds for user 7 and finds no record otherwise. *)
Definition tip_for_ann (uid : jsval) : generation :=
  if strict_eq uid (JNum 7) then Generated "Try a filter!" else NoUser.

(** * Facts about the loops *)

Local Open Scope list_scope.

Lemma with_outbox_same (h : Hub) : with_outbox (outbox h) h = h.
Proof. destruct h; reflexivity. Qed.

Lemma new_sends_app (h h' : Hub) (l : list sent) :
  outbox h' = outbox h ++ l -> new_sends h h' = l.
Proof.
  intros E. unfold new_sends. rewrite E.
  rewrite skipn_app, skipn_all, Nat.sub_diag. reflexivity.
Qed.

Lemma filter_none {A : Type} (P : A -> bool) (l : list A) :
  (forall x, In x l -> P x = false) -> filter P l = [].
Proof.
  induction l as [|x l IH]; intros H; simpl; [reflexivity|].
  rewrite (H x (or_introl eq_refl)). apply IH.
  intros y Hy. apply H. right. exact Hy.
Qed.

Lemma deliveries_to (payload : jsval) (cs : list conn) :
  map to (deliveries payload cs) = cs.
Proof.
  unfold deliveries. rewrite map_map. simpl. apply map_id.
Qed.

Lemma in_deliveries (payload : jsval) (cs : list conn) (s : sent) :
  In s (deliveries payload cs) <-> s = mkSent (to s) OPEN payload /\ In (to s) cs.
Proof.
  unfold deliveries. rewrite in_map_iff. split.
  - intros [c [<- Hc]]. simpl. auto.
  - intros [E Hc]. exists (to s). auto.
Qed.

(** A loop whose body sends one fixed payload to the clients selected by a
    test that only reads the sockets and the [clients] map. *)
Lemma forEach_guarded_send (P : conn -> bool) (payload : jsval)
      (f : conn -> Hub -> Hub) (h0 : Hub) :
  (forall c h, sockets h = sockets h0 -> clients h = clients h0 ->
               f c h = if P c then ws_send c payload h else h) ->
  forall l h, sockets h = sockets h0 -> clients h = clients h0 ->
    forEach l f h =
    with_outbox
      (outbox h ++ map (fun c => mkSent c (ready h0 c) payload) (filter P l)) h.
Proof.
  intros Hf. induction l as [|c l IH]; intros h Hs Hc; simpl.
  - rewrite app_nil_r. symmetry. apply with_outbox_same.
  - rewrite (Hf c h Hs Hc). destruct (P c) eqn:E.
    + rewrite IH by (destruct h; assumption).
      unfold ws_send, ready, with_outbox. simpl. rewrite Hs.
      rewrite <- app_assoc. reflexivity.
    + apply IH; assumption.
Qed.

Lemma send_to_others_spec (ws : conn) (payload : jsval) (h : Hub) :
  send_to_others ws payload h =
  with_outbox
    (outbox h ++ deliveries payload (filter (other_open h ws) (wss_clients h)))
    h.
Proof.
  unfold send_to_others.
  rewrite (forEach_guarded_send (other_open h ws) payload _ h); auto.
  - f_equal. f_equal. unfold deliveries. apply map_ext_in.
    intros c Hc. apply filter_In in Hc. destruct Hc as [_ Hc].
    unfold other_open in Hc. apply andb_true_iff in Hc. destruct Hc as [_ Hc].
    destruct (ready h c); simpl in Hc; congruence.
  - intros c h1 Hs _. unfold other_open, ready. rewrite Hs. reflexivity.
Qed.

Lemma send_to_user_spec (target payload : jsval) (h : Hub) :
  send_to_user target payload h =
  with_outbox
    (outbox h
     ++ deliveries payload (filter (open_bound_to h target) (wss_clients h)))
    h.
Proof.
  unfold send_to_user.
  rewrite (forEach_guarded_send (open_bound_to h target) payload _ h); auto.
  - f_equal. f_equal. unfold deliveries. apply map_ext_in.
    intros c Hc. apply filter_In in Hc. destruct Hc as [_ Hc].
    unfold open_bound_to in Hc.
    destruct (clients_get c (clients h)); [|discriminate].
    apply andb_true_iff in Hc. destruct Hc as [Hc _].
    destruct (ready h c); simpl in Hc; congruence.
  - intros c h1 Hs Hc. unfold open_bound_to, ready. rewrite Hs, Hc.
    destruct (clients_get c (clients h)); reflexivity.
Qed.




(** The same loop when every send reads the clock first. *)
Lemma forEach_stamped_send (clock : nat -> string) (P : conn -> bool)
      (mk : string -> jsval) (f : conn -> Hub -> Hub) (h0 : Hub) :
  (forall c, P c = true -> ready h0 c = OPEN) ->
  (forall c h, sockets h = sockets h0 -> clients h = clients h0 ->
               f c h = if P c
                       then let (t, h1) := toISOString clock h in
                            ws_send c (mk t) h1
                       else h) ->
  forall l h, sockets h = sockets h0 -> clients h = clients h0 ->
    outbox (forEach l f h) =
    outbox h ++ stamped clock mk (clock_reads h) (filter P l).
Proof.
  intros Hopen Hf. induction l as [|c l IH]; intros h Hs Hc; simpl.
  - rewrite app_nil_r. reflexivity.
  - rewrite (Hf c h Hs Hc). destruct (P c) eqn:E.
    + simpl. rewrite IH by (destruct h; assumption).
      unfold ws_send, ready. simpl. rewrite Hs.
      fold (ready h0 c). rewrite (Hopen c E).
      rewrite <- app_assoc. reflexivity.
    + apply IH; assumption.
Qed.

(** * Facts about objects and enrichment *)

Lemma obj_get_set_same (k : string) (v : jsval) (o : obj) :
  obj_get k (obj_set k v o) = v.
Proof.
  induction o as [|[k' v'] o IH]; simpl.
  - rewrite String.eqb_refl. reflexivity.
  - destruct (String.eqb k k') eqn:E; simpl; rewrite E; auto.
Qed.

Lemma obj_get_set_other (k k' : string) (v : jsval) (o : obj) :
  k <> k' -> obj_get k (obj_set k' v o) = obj_get k o.
Proof.
  intros N. induction o as [|[k2 v2] o IH]; simpl.
  - apply String.eqb_neq in N. rewrite N. reflexivity.
  - destruct (String.eqb k' k2) eqn:E; simpl.
    + apply String.eqb_eq in E. subst k2.
      apply String.eqb_neq in N. rewrite N. reflexivity.
    + destruct (String.eqb k k2); auto.
Qed.

Lemma other_open_ext (h h' : Hub) (ws : conn) :
  sockets h' = sockets h -> other_open h' ws = other_open h ws.
Proof. intros E. unfold other_open, ready. rewrite E. reflexivity. Qed.

Lemma open_bound_to_ext (h h' : Hub) (uid : jsval) :
  sockets h' = sockets h -> clients h' = clients h ->
  open_bound_to h' uid = open_bound_to h uid.
Proof. intros E1 E2. unfold open_bound_to, ready. rewrite E1, E2. reflexivity. Qed.

Lemma other_open_true (h : Hub) (ws c : conn) :
  other_open h ws c = true <-> c <> ws /\ ready h c = OPEN.
Proof.
  unfold other_open. rewrite andb_true_iff, negb_true_iff, Nat.eqb_neq.
  destruct (ready h c); simpl; intuition congruence.
Qed.

Section Enrichment.

Variable fresh_messageId : nat -> string.

(** Enrichment touches nothing but the counter of generated ids. *)
Lemma enrich_frame (info : ClientInfo) (data : obj) (h : Hub) :
  let h1 := snd (enrich fresh_messageId info data h) in
  sockets h1 = sockets h /\ wss_clients h1 = wss_clients h
  /\ clients h1 = clients h /\ pending h1 = pending h
  /\ outbox h1 = outbox h /\ console_errors h1 = console_errors h.
Proof.
  unfold enrich. destruct (truthy (obj_get "messageId" data)); simpl;
    repeat split; reflexivity.
Qed.

Lemma enrich_keeps_messageId (info : ClientInfo) (data : obj) (h : Hub) :
  truthy (obj_get "messageId" data) = true ->
  enrich fresh_messageId info data h =
  (obj_set "originalSenderId" (userId info)
     (obj_set "sender" (info_to_js info) data), h).
Proof. intros T. unfold enrich. rewrite T. reflexivity. Qed.

Lemma enrich_adds_messageId (info : ClientInfo) (data : obj) (h : Hub) :
  truthy (obj_get "messageId" data) = false ->
  enrich fresh_messageId info data h =
  (obj_set "originalSenderId" (userId info)
     (obj_set "messageId" (JStr (fresh_messageId (ids_made h)))
        (obj_set "sender" (info_to_js info) data)),
   with_ids_made (S (ids_made h)) h).
Proof. intros T. unfold enrich. rewrite T. reflexivity. Qed.

(** Whatever the frame, the enriched envelope names its sender. *)
Lemma enrich_sender (info : ClientInfo) (data : obj) (h : Hub) :
  obj_get "sender" (fst (enrich fresh_messageId info data h))
  = info_to_js info.
Proof.
  unfold enrich. destruct (truthy (obj_get "messageId" data)); simpl;
    repeat (rewrite obj_get_set_other by discriminate);
    apply obj_get_set_same.
Qed.

End Enrichment.

(** * The message listener, case by case *)

Ltac decide_types :=
  repeat match goal with
         | |- context [strict_eq (JStr ?a) (JStr ?b)] =>
             let v := eval vm_compute in (strict_eq (JStr a) (JStr b)) in
             change (strict_eq (JStr a) (JStr b)) with v
         end;
  cbv beta iota zeta.

Section Listener.

Variable clock : nat -> string.
Variable fresh_messageId : nat -> string.


(** An authenticated frame that is neither [auth] nor a relayed [ack]
    reaches the [switch] with the enriched envelope. *)
Lemma on_message_dispatch (h : Hub) (ws : conn) (info : ClientInfo)
      (data : obj) :
  clients_get ws (clients h) = Some info ->
  strict_eq (obj_get "type" data) (JStr "auth") = false ->
  strict_eq (obj_get "type" data) (JStr "ack")
  && truthy (obj_get "messageId" data) = false ->
  on_message clock fresh_messageId ws (Parsed data) h =
  dispatch ws info data (fst (enrich fresh_messageId info data h)) (snd (enrich fresh_messageId info data h)).
Proof.
  intros Hc Ha Hk. unfold on_message. rewrite Ha, Hc, Hk.
  destruct (enrich fresh_messageId info data h). reflexivity.
Qed.

End Listener.

(** * Routing *)

Section Routing.

Variable clock : nat -> string.
Variable fresh_messageId : nat -> string.



(** C10. An [ack] frame without a [messageId], sent by an authenticated
    connection, is not relayed: it gets a [sender], a freshly generated
    [messageId] and an [originalSenderId] (the sender's own id), and this
    enriched envelope goes to every open connection except the sender. *)
Theorem ack_without_messageId_is_broadcast
        (h : Hub) (ws : conn) (info : ClientInfo) (data : obj) :
  clients_get ws (clients h) = Some info ->
  obj_get "type" data = JStr "ack" ->
  truthy (obj_get "messageId" data) = false ->
  let envelope :=
    JObj (obj_set "originalSenderId" (userId info)
            (obj_set "messageId" (JStr (fresh_messageId (ids_made h)))
               (obj_set "sender" (info_to_js info) data))) in
  let h' := on_message clock fresh_messageId ws (Parsed data) h in
  let out := new_sends h h' in
  out = deliveries envelope (filter (other_open h ws) (wss_clients h))
  /\ (forall c, In c (wss_clients h) -> c <> ws -> ready h c = OPEN ->
                In (mkSent c OPEN envelope) out)
  /\ ~ In ws (map to out)
  /\ (forall s t, In s out ->
                  body s <> ack_envelope (obj_get "messageId" data) t)
  /\ ids_made h' = S (ids_made h).
Proof.
  intros Hc Ht Hm envelope h' out.
  assert (Hd : h' = send_to_others ws envelope
                      (with_ids_made (S (ids_made h)) h)).
  { subst h'. rewrite (on_message_dispatch clock fresh_messageId h ws info data Hc).
    - rewrite (enrich_adds_messageId fresh_messageId info data h Hm). simpl fst.
      simpl snd. unfold dispatch. rewrite Ht. decide_types. reflexivity.
    - rewrite Ht. reflexivity.
    - rewrite Hm. apply andb_false_r. }
  assert (E : out = deliveries envelope
                      (filter (other_open h ws) (wss_clients h))).
  { subst out. apply new_sends_app. rewrite Hd, send_to_others_spec.
    simpl. rewrite (other_open_ext h _ ws) by reflexivity. reflexivity. }
  split; [exact E|]. rewrite E. split; [|split; [|split]].
  - intros c Hin Hne Ho. apply in_deliveries. simpl. split; [reflexivity|].
    apply filter_In. split; [exact Hin|]. apply other_open_true. auto.
  - rewrite deliveries_to. intros Hin. apply filter_In in Hin.
    destruct Hin as [_ Hin]. apply other_open_true in Hin. destruct Hin; auto.
  - intros s t Hin Hb. apply in_deliveries in Hin. destruct Hin as [Es _].
    rewrite Es in Hb. simpl in Hb. subst envelope.
    assert (G : obj_get "sender"
                  (obj_set "originalSenderId" (userId info)
                     (obj_set "messageId" (JStr (fresh_messageId (ids_made h)))
                        (obj_set "sender" (info_to_js info) data)))
                = info_to_js info).
    { repeat (rewrite obj_get_set_other by discriminate).
      apply obj_get_set_same. }
    injection Hb as Hb. rewrite Hb in G. discriminate G.
  - rewrite Hd, send_to_others_spec. reflexivity.
Qed.

(** C7 (amended). A [direct-message] frame with a present [targetUserId] U
    from an authenticated connection: the enriched envelope goes to every
    open connection bound to U and to no connection bound to another user.
    The sending connection is not excluded: it receives the envelope
    exactly when it is itself open and bound to U. *)
Theorem direct_message_reaches_target_connections
        (h : Hub) (ws : conn) (info : ClientInfo) (data : obj) :
  clients_get ws (clients h) = Some info ->
  obj_get "type" data = JStr "direct-message" ->
  truthy (obj_get "targetUserId" data) = true ->
  let U := obj_get "targetUserId" data in
  let envelope := JObj (fst (enrich fresh_messageId info data h)) in
  let out := new_sends h (on_message clock fresh_messageId ws (Parsed data) h) in
  out = deliveries envelope (filter (open_bound_to h U) (wss_clients h))
  /\ (forall c, In c (wss_clients h) -> open_bound_to h U c = true ->
                In (mkSent c OPEN envelope) out)
  /\ (forall s, In s out -> open_bound_to h U (to s) = true)
  /\ (In ws (map to out) <->
      In ws (wss_clients h) /\ ready h ws = OPEN
      /\ strict_eq (userId info) U = true).
Proof.
  intros Hc Ht Hu U envelope out.
  assert (E : out = deliveries envelope
                      (filter (open_bound_to h U) (wss_clients h))).
  { subst out. apply new_sends_app.
    rewrite (on_message_dispatch clock fresh_messageId h ws info data Hc).
    - destruct (enrich_frame fresh_messageId info data h)
        as (E1 & E2 & E3 & _ & E5 & _).
      unfold dispatch. rewrite Ht. decide_types. rewrite Hu.
      rewrite send_to_user_spec. simpl outbox.
      rewrite E2, E5, (open_bound_to_ext h _ _ E1 E3). reflexivity.
    - rewrite Ht. reflexivity.
    - rewrite Ht. reflexivity. }
  split; [exact E|]. rewrite E. split; [|split].
  - intros c Hin Hb. apply in_deliveries. simpl. split; [reflexivity|].
    apply filter_In. auto.
  - intros s Hin. apply in_deliveries in Hin. destruct Hin as [_ Hin].
    apply filter_In in Hin. apply Hin.
  - rewrite deliveries_to, filter_In. unfold open_bound_to. rewrite Hc.
    rewrite andb_true_iff. destruct (ready h ws); simpl; intuition congruence.
Qed.

(** C4 (amended). A [search-query] frame whose [query] is the empty string
    (or any other falsy value) is dropped by the guard at routes:295: the
    search collaborator is not called and nothing is sent, neither results
    nor an [error]. *)
Theorem empty_search_query_is_dropped
        (h : Hub) (ws : conn) (info : ClientInfo) (data : obj) :
  clients_get ws (clients h) = Some info ->
  obj_get "type" data = JStr "search-query" ->
  truthy (obj_get "query" data) = false ->
  let h' := on_message clock fresh_messageId ws (Parsed data) h in
  new_sends h h' = [] /\ pending h' = pending h
  /\ console_errors h' = console_errors h.
Proof.
  intros Hc Ht Hq h'. subst h'.
  rewrite (on_message_dispatch clock fresh_messageId h ws info data Hc).
  - destruct (enrich_frame fresh_messageId info data h)
      as (_ & _ & _ & E4 & E5 & E6).
    unfold dispatch. rewrite Ht. decide_types. rewrite Hq.
    split; [|split]; try assumption.
    apply new_sends_app. rewrite E5, app_nil_r. reflexivity.
  - rewrite Ht. reflexivity.
  - rewrite Ht. reflexivity.
Qed.

(** C2 (amended). Every [auth] frame makes the hub send
    [user-online {userId, username}] to every other open connection and the
    [online-users] snapshot to the authenticating connection, whatever
    connections the user already has. *)
Theorem auth_announces_user_online (h : Hub) (ws : conn) (data : obj) :
  obj_get "type" data = JStr "auth" ->
  let info := mkClientInfo (obj_get "userId" data) (obj_get "username" data) in
  let announce := presence "user-online" (userId info) (username info) in
  let out := new_sends h (on_message clock fresh_messageId ws (Parsed data) h) in
  out = deliveries announce (filter (other_open h ws) (wss_clients h))
        ++ [mkSent ws (ready h ws)
                   (online_users ws info (clients_set ws info (clients h)))]
  /\ (forall c, In c (wss_clients h) -> c <> ws -> ready h c = OPEN ->
                In (mkSent c OPEN announce) out).
Proof.
  intros Ht info announce out.
  assert (E : out = deliveries announce
                      (filter (other_open h ws) (wss_clients h))
                    ++ [mkSent ws (ready h ws)
                          (online_users ws info
                             (clients_set ws info (clients h)))]).
  { subst out. apply new_sends_app. unfold on_message.
    rewrite Ht. decide_types. unfold on_auth. fold info.
    rewrite send_to_others_spec. simpl.
    rewrite (other_open_ext h _ ws) by reflexivity.
    rewrite <- app_assoc. reflexivity. }
  split; [exact E|]. rewrite E. intros c Hin Hne Ho.
  apply in_or_app. left. apply in_deliveries. simpl. split; [reflexivity|].
  apply filter_In. split; [exact Hin|]. apply other_open_true. auto.
Qed.

End Routing.

(** * Closing a connection *)

(** C3 (amended). When a connection bound to a user (with a truthy
    [userId]) closes, [user-offline {userId, username}] is sent to every
    other open connection, once each, whatever connections of the same user
    remain; the entry of the closed connection leaves [clients]. *)
Theorem close_announces_user_offline (h : Hub) (ws : conn) (info : ClientInfo) :
  clients_get ws (clients h) = Some info ->
  truthy (userId info) = true ->
  let announce := presence "user-offline" (userId info) (username info) in
  let out := new_sends h (on_close ws h) in
  out = deliveries announce (filter (other_open h ws) (wss_clients h))
  /\ (forall c, In c (wss_clients h) -> c <> ws -> ready h c = OPEN ->
                In (mkSent c OPEN announce) out)
  /\ (NoDup (wss_clients h) -> NoDup (map to out))
  /\ clients (on_close ws h) = clients_delete ws (clients h).
Proof.
  intros Hc Hu announce out.
  assert (E : out = deliveries announce
                      (filter (other_open h ws) (wss_clients h))).
  { subst out. apply new_sends_app. unfold on_close. rewrite Hc, Hu.
    rewrite send_to_others_spec. reflexivity. }
  split; [exact E|]. rewrite E. split; [|split].
  - intros c Hin Hne Ho. apply in_deliveries. simpl. split; [reflexivity|].
    apply filter_In. split; [exact Hin|]. apply other_open_true. auto.
  - intros Hnd. rewrite deliveries_to. apply NoDup_filter. exact Hnd.
  - unfold on_close. rewrite Hc, Hu, send_to_others_spec. reflexivity.
Qed.

(** A connection that never authenticated closes without any event. *)
Lemma close_unbound_is_silent (h : Hub) (ws : conn) :
  clients_get ws (clients h) = None -> new_sends h (on_close ws h) = [].
Proof.
  intros Hc. apply new_sends_app. unfold on_close. rewrite Hc.
  simpl. rewrite app_nil_r. reflexivity.
Qed.

(** * The search helper *)

Section Search.

Variable js_trim : string -> string.
Variable js_toLowerCase : string -> string.


(** C6 (amended). When [searchUsers] fails, [handleSearchQuery] logs the
    failure and, if the requesting connection is still open, sends it one
    [error] envelope ("Error processing search query"); nothing is sent to
    any other connection and the registry is untouched. *)
Theorem search_failure_is_reported_to_requester
        (h : Hub) (ws : conn) (info : ClientInfo) (query : jsval) (db : Engine) :
  searchUsers js_trim js_toLowerCase query db = None ->
  let h' := handleSearchQuery js_trim js_toLowerCase ws info query db h in
  new_sends h h'
  = (if is_open (ready h ws) then [mkSent ws OPEN search_error] else [])
  /\ (forall s, In s (new_sends h h') -> to s = ws)
  /\ console_errors h'
     = console_errors h ++ ["Error handling search query:"%string]
  /\ clients h' = clients h /\ wss_clients h' = wss_clients h
  /\ sockets h' = sockets h.
Proof.
  intros Hf h'. subst h'. unfold handleSearchQuery. rewrite Hf.
  assert (R : ready (console_error "Error handling search query:" h) ws
              = ready h ws) by reflexivity.
  rewrite R. destruct (ready h ws) eqn:Er; simpl is_open; cbv iota.
  all: repeat split; try reflexivity.
  all: try (apply new_sends_app; simpl; rewrite ?app_nil_r; reflexivity).
  all: try (intros s Hin;
            match type of Hin with
            | In _ (new_sends ?a ?b) =>
                assert (G : new_sends a b = []) by
                  (apply new_sends_app; simpl; rewrite ?app_nil_r; reflexivity);
                rewrite G in Hin; contradiction
            end).
  - apply new_sends_app. unfold ws_send. simpl. unfold ready. simpl.
    fold (ready h ws). rewrite Er. reflexivity.
  - intros s Hin.
    assert (G : new_sends h
                  (ws_send ws search_error
                     (console_error "Error handling search query:" h))
                = [mkSent ws OPEN search_error]).
    { apply new_sends_app. unfold ws_send. simpl. unfold ready. simpl.
      fold (ready h ws). rewrite Er. reflexivity. }
    rewrite G in Hin. destruct Hin as [<- | []]. reflexivity.
Qed.

(** Every row that reaches a [search-results] payload is sent whole. *)
Lemma search_results_expose_password (query : jsval) (results : list User) :
  results <> [] -> mentions "password" (search_results query results) = true.
Proof.
  destruct results as [|u l]; [congruence|]. intros _.
  unfold search_results. cbn.
  destruct (mentions "password" query); reflexivity.
Qed.

(** The sibling path does strip the column: no row returned by
    [getSuggestions] has a [password] property. *)
Lemma getSuggestions_strips_password (uid : jsval) (db : Engine) (row : obj) :
  In row (fst (getSuggestions uid db)) -> obj_get "password" row = JUndef.
Proof.
  unfold getSuggestions. destruct (run_users db (SelectUsersNe uid 10));
    simpl; [|contradiction].
  rewrite in_map_iff. intros [u [<- _]]. destruct u; reflexivity.
Qed.

End Search.

(** * Unguarded sends *)

(** The error reply of the [contact-status-update] case is sent without
    looking at [readyState]: it is recorded with whatever state the socket
    is in when the storage call fails. *)
Lemma contact_failure_reply_is_unguarded
      (clock : nat -> string) (h : Hub) (ws : conn) (info : ClientInfo)
      (cid stat : jsval) (db : Engine) :
  run_update_contact db cid stat = None ->
  new_sends h (contact_status_update clock ws info cid stat db h)
  = [mkSent ws (ready h ws) contact_status_error].
Proof.
  intros Hf. apply new_sends_app. unfold contact_status_update,
    updateContactStatus. rewrite Hf. reflexivity.
Qed.

(** * The periodic-message timer *)





(** * Which sends can meet a socket that is not open *)

Lemma guarded_refl (h : Hub) : guarded h h.
Proof.
  repeat split. exists []. rewrite app_nil_r. split; [reflexivity|constructor].
Qed.

Lemma guarded_trans (h1 h2 h3 : Hub) :
  guarded h1 h2 -> guarded h2 h3 -> guarded h1 h3.
Proof.
  intros (S1 & W1 & l1 & O1 & F1) (S2 & W2 & l2 & O2 & F2).
  split; [congruence|]. split; [congruence|].
  exists (l1 ++ l2). rewrite O2, O1, app_assoc. split; [reflexivity|].
  apply Forall_app. auto.
Qed.

Lemma guarded_send (c : conn) (b : jsval) (h : Hub) :
  ready h c = OPEN -> guarded h (ws_send c b h).
Proof.
  intros Ho. repeat split. exists [mkSent c (ready h c) b].
  split; [reflexivity|]. constructor; [exact Ho|constructor].
Qed.

Lemma guarded_silent (h h' : Hub) :
  sockets h' = sockets h -> wss_clients h' = wss_clients h ->
  outbox h' = outbox h -> guarded h h'.
Proof.
  intros E1 E2 E3. repeat split; try assumption.
  exists []. rewrite app_nil_r. split; [assumption|constructor].
Qed.

Lemma guarded_forEach {A : Type} (f : A -> Hub -> Hub) (l : list A) :
  (forall x h, guarded h (f x h)) -> forall h, guarded h (forEach l f h).
Proof.
  intros Hf. induction l as [|x l IH]; intros h; simpl.
  - apply guarded_refl.
  - eapply guarded_trans; [apply Hf | apply IH].
Qed.

Lemma is_open_true (s : readyState) : is_open s = true -> s = OPEN.
Proof. destruct s; simpl; congruence. Qed.

Lemma guarded_send_to_others (ws : conn) (payload : jsval) (h : Hub) :
  guarded h (send_to_others ws payload h).
Proof.
  unfold send_to_others. apply guarded_forEach. intros c h1.
  destruct (negb (Nat.eqb c ws) && is_open (ready h1 c)) eqn:E.
  - apply guarded_send. apply andb_true_iff in E. apply is_open_true, E.
  - apply guarded_refl.
Qed.

Lemma guarded_send_to_user (target payload : jsval) (h : Hub) :
  guarded h (send_to_user target payload h).
Proof.
  unfold send_to_user. apply guarded_forEach. intros c h1.
  destruct (clients_get c (clients h1)); [|apply guarded_refl].
  destruct (is_open (ready h1 c) && strict_eq (userId c0) target) eqn:E.
  - apply guarded_send. apply andb_true_iff in E. apply is_open_true, E.
  - apply guarded_refl.
Qed.

Section GuardedHandlers.

Variable clock : nat -> string.
Variable fresh_messageId : nat -> string.
Variable js_trim : string -> string.
Variable js_toLowerCase : string -> string.

Lemma guarded_stamped_send (c : conn) (mk : string -> jsval) (h : Hub) :
  ready h c = OPEN ->
  guarded h (let (t, h1) := toISOString clock h in ws_send c (mk t) h1).
Proof.
  intros Ho. unfold toISOString.
  eapply guarded_trans;
    [apply (guarded_silent h (with_clock_reads (S (clock_reads h)) h));
     reflexivity|].
  apply guarded_send. exact Ho.
Qed.

Lemma guarded_relay_ack (data : obj) (h : Hub) :
  guarded h (relay_ack clock data h).
Proof.
  unfold relay_ack.
  destruct (truthy (obj_get "originalSenderId" data)); [|apply guarded_refl].
  apply guarded_forEach. intros c h1.
  destruct (clients_get c (clients h1)); [|apply guarded_refl].
  destruct (is_open (ready h1 c) && _) eqn:E; [|apply guarded_refl].
  apply guarded_stamped_send. apply andb_true_iff in E. apply is_open_true, E.
Qed.

Lemma guarded_dispatch (ws : conn) (info : ClientInfo) (data enriched : obj)
      (h : Hub) :
  guarded h (dispatch ws info data enriched h).
Proof.
  unfold dispatch. cbv zeta.
  repeat match goal with
         | |- guarded _ (if ?b then _ else _) => destruct b
         end;
    first [ apply guarded_refl
          | apply guarded_send_to_user
          | apply guarded_send_to_others
          | apply guarded_silent; reflexivity ].
Qed.

(** On an open socket the whole [message] listener is guarded: its two
    unguarded sends (routes:114 and routes:128) address the socket the frame
    arrived on. *)
Lemma guarded_on_message (ws : conn) (message : frame) (h : Hub) :
  ready h ws = OPEN ->
  guarded h (on_message clock fresh_messageId ws message h).
Proof.
  intros Ho. unfold on_message. destruct message as [|data].
  - apply guarded_silent; reflexivity.
  - destruct (strict_eq (obj_get "type" data) (JStr "auth")).
    + unfold on_auth.
      set (info := mkClientInfo (obj_get "userId" data)
                                (obj_get "username" data)).
      set (h1 := with_clients (clients_set ws info (clients h)) h).
      eapply guarded_trans;
        [apply (guarded_silent h h1); reflexivity|].
      set (h2 := send_to_others ws
                   (presence "user-online" (userId info) (username info)) h1).
      apply (guarded_trans h1 h2); [apply guarded_send_to_others|].
      match goal with
      | |- guarded _ (spawn ?t (ws_send ?c ?b _)) =>
          apply (guarded_trans h2 (ws_send c b h2));
            [apply guarded_send|apply guarded_silent; reflexivity]
      end.
      destruct (guarded_send_to_others ws
                  (presence "user-online" (userId info) (username info)) h1)
        as (E & _).
      unfold ready. fold h2 in E. rewrite E. exact Ho.
    + destruct (clients_get ws (clients h)) as [info|].
      * destruct (strict_eq (obj_get "type" data) (JStr "ack")
                  && truthy (obj_get "messageId" data)).
        -- apply guarded_relay_ack.
        -- destruct (enrich fresh_messageId info data h) as [e h1] eqn:Ee.
           pose proof (enrich_frame fresh_messageId info data h) as F.
           rewrite Ee in F. simpl in F.
           destruct F as (F1 & F2 & _ & _ & F5 & _).
           eapply guarded_trans;
             [apply (guarded_silent h h1); assumption
             |apply guarded_dispatch].
      * apply guarded_send. exact Ho.
Qed.

Lemma guarded_on_close (ws : conn) (h : Hub) : guarded h (on_close ws h).
Proof.
  unfold on_close.
  set (h1 := match clients_get ws (clients h) with
             | Some info => _
             | None => h
             end).
  apply (guarded_trans h h1); [|apply guarded_silent; reflexivity].
  subst h1. destruct (clients_get ws (clients h)) as [info|];
    [|apply guarded_refl].
  destruct (truthy (userId info)); [|apply guarded_refl].
  apply guarded_send_to_others.
Qed.

Lemma guarded_handleSearchQuery (ws : conn) (info : ClientInfo)
      (query : jsval) (db : Engine) (h : Hub) :
  guarded h (handleSearchQuery js_trim js_toLowerCase ws info query db h).
Proof.
  unfold handleSearchQuery.
  destruct (searchUsers js_trim js_toLowerCase query db).
  - destruct (is_open (ready h ws)) eqn:E; [|apply guarded_refl].
    apply guarded_send. apply is_open_true, E.
  - eapply guarded_trans;
      [apply (guarded_silent h
                (console_error "Error handling search query:" h));
       reflexivity|].
    destruct (is_open (ready (console_error _ h) ws)) eqn:E;
      [|apply guarded_refl].
    apply guarded_send. apply is_open_true, E.
Qed.

Lemma guarded_sendFriendSuggestions (ws : conn) (uid : jsval) (db : Engine)
      (h : Hub) :
  guarded h (sendFriendSuggestions ws uid db h).
Proof.
  unfold sendFriendSuggestions. destruct (getSuggestions uid db) as [l failed].
  set (h1 := if failed then console_error _ h else h).
  assert (G : guarded h h1).
  { subst h1. destruct failed; [apply guarded_silent; reflexivity
                               |apply guarded_refl]. }
  eapply guarded_trans; [exact G|].
  destruct (is_open (ready h1 ws)) eqn:E; [|apply guarded_refl].
  apply guarded_send. apply is_open_true, E.
Qed.

(** The [contact-status-update] continuation is guarded whenever the storage
    call does not fail. *)
Lemma guarded_contact_status_update (ws : conn) (info : ClientInfo)
      (cid stat : jsval) (db : Engine) (h : Hub) :
  run_update_contact db cid stat <> None ->
  guarded h (contact_status_update clock ws info cid stat db h).
Proof.
  intros Hok. unfold contact_status_update, updateContactStatus.
  destruct (run_update_contact db cid stat) as [rows|]; [|congruence].
  destruct (hd_error rows) as [c|]; [|apply guarded_refl].
  apply guarded_forEach. intros x h1.
  destruct (clients_get x (clients h1)); [|apply guarded_refl].
  destruct (is_open (ready h1 x) && _) eqn:E; [|apply guarded_refl].
  apply guarded_stamped_send. apply andb_true_iff in E. apply is_open_true, E.
Qed.

Lemma lookup_set_state_same (c : conn) (s : readyState)
      (l : list (conn * readyState)) :
  lookup_state c (set_state c s l) = s.
Proof.
  induction l as [|[c' s'] l IH]; simpl.
  - rewrite Nat.eqb_refl. reflexivity.
  - destruct (Nat.eqb c c') eqn:E; simpl; rewrite E; auto.
Qed.

(** X12. The sends of one event: all of them find their socket open,
    except the error reply of a failed [contact-status-update], which is
    sent whatever the state of the requesting socket. *)
Lemma sends_meet_open_sockets (e : event) (h : Hub) (s : sent) :
  In s (sent_by clock fresh_messageId js_trim js_toLowerCase e h) ->
  state_at_send s = OPEN
  \/ exists i db ws info cid stat,
       e = Settle i db
       /\ nth_error (pending h) i = Some (ContactTask ws info cid stat)
       /\ run_update_contact db cid stat = None
       /\ s = mkSent ws (ready h ws) contact_status_error.
Proof.
  unfold sent_by. intros Hin.
  assert (G : forall h0 h', outbox h0 = outbox h -> guarded h0 h' ->
                            In s (skipn (List.length (outbox h)) (outbox h')) ->
                            state_at_send s = OPEN).
  { intros h0 h' E0 (_ & _ & l & O & F) Hs. rewrite O, E0 in Hs.
    rewrite skipn_app, skipn_all, Nat.sub_diag in Hs. simpl in Hs.
    rewrite Forall_forall in F. auto. }
  destruct e as [ws|ws message|ws|ws|i db]; simpl in Hin.
  - left. destruct (mem ws (map fst (sockets h))).
    + apply (G h h eq_refl (guarded_refl h) Hin).
    + set (h0 := with_wss_clients (wss_clients h ++ [ws])
                   (with_sockets (set_state ws OPEN (sockets h)) h)) in *.
      apply (G h0 (on_connection clock ws h0) eq_refl); [|exact Hin].
      apply (guarded_stamped_send ws
               (fun t => JObj [ ("type", JStr "connection");
                                ("status", JStr "connected");
                                ("time", JStr t) ]) h0).
      unfold ready. simpl. apply lookup_set_state_same.
  - left. destruct (mem ws (wss_clients h) && is_open (ready h ws)) eqn:E.
    + apply andb_true_iff in E. destruct E as [_ E].
      apply (G h _ eq_refl (guarded_on_message ws message h (is_open_true _ E))
               Hin).
    + apply (G h h eq_refl (guarded_refl h) Hin).
  - left. destruct (mem ws (wss_clients h) && is_open (ready h ws)).
    + refine (G _ _ _ (guarded_refl _) Hin). reflexivity.
    + apply (G h h eq_refl (guarded_refl h) Hin).
  - left. destruct (mem ws (wss_clients h)).
    + refine (G _ _ _ (guarded_on_close ws _) Hin). reflexivity.
    + apply (G h h eq_refl (guarded_refl h) Hin).
  - destruct (nth_error (pending h) i) as [t|] eqn:Et.
    + set (h0 := with_pending (remove_nth i (pending h)) h) in *.
      destruct t as [ws info query|ws uid|ws info cid stat]; simpl in Hin.
      * left. apply (G h0 _ eq_refl
                       (guarded_handleSearchQuery ws info query db h0) Hin).
      * left. apply (G h0 _ eq_refl
                       (guarded_sendFriendSuggestions ws uid db h0) Hin).
      * destruct (run_update_contact db cid stat) as [rows|] eqn:Er.
        -- left.
           assert (Hok : run_update_contact db cid stat <> None)
             by congruence.
           apply (G h0 _ eq_refl
                    (guarded_contact_status_update ws info cid stat db h0 Hok)
                    Hin).
        -- right. exists i, db, ws, info, cid, stat.
           repeat split; try assumption.
           pose proof (contact_failure_reply_is_unguarded clock h0 ws info
                         cid stat db Er) as N.
           unfold new_sends in N. change (outbox h0) with (outbox h) in N.
           rewrite N in Hin. destruct Hin as [<- | []]. reflexivity.
    + left. apply (G h h eq_refl (guarded_refl h) Hin).
Qed.

End GuardedHandlers.

(** * The registry along a run *)

Lemma forEach_frame {A B : Type} (proj : Hub -> B) (f : A -> Hub -> Hub)
      (l : list A) :
  (forall x h, proj (f x h) = proj h) ->
  forall h, proj (forEach l f h) = proj h.
Proof.
  intros Hf. induction l as [|x l IH]; intros h; simpl; [reflexivity|].
  rewrite IH. apply Hf.
Qed.

Lemma clients_send_to_others (ws : conn) (payload : jsval) (h : Hub) :
  clients (send_to_others ws payload h) = clients h.
Proof. rewrite send_to_others_spec. reflexivity. Qed.

Lemma clients_send_to_user (target payload : jsval) (h : Hub) :
  clients (send_to_user target payload h) = clients h.
Proof. rewrite send_to_user_spec. reflexivity. Qed.

Lemma lookup_set_state_other (c c' : conn) (s : readyState)
      (l : list (conn * readyState)) :
  c <> c' -> lookup_state c (set_state c' s l) = lookup_state c l.
Proof.
  intros N. induction l as [|[c2 s2] l IH]; simpl.
  - apply Nat.eqb_neq in N. rewrite N. reflexivity.
  - destruct (Nat.eqb c' c2) eqn:E; simpl.
    + apply Nat.eqb_eq in E. subst c2.
      apply Nat.eqb_neq in N. rewrite N. reflexivity.
    + destruct (Nat.eqb c c2); auto.
Qed.

Lemma lookup_state_unknown (c : conn) (l : list (conn * readyState)) :
  mem c (map fst l) = false -> lookup_state c l = CLOSED.
Proof.
  induction l as [|[c' s'] l IH]; simpl; [reflexivity|].
  destruct (Nat.eqb c c'); simpl; [discriminate|exact IH].
Qed.

Lemma mem_In (c : conn) (l : list conn) : mem c l = true <-> In c l.
Proof.
  unfold mem. rewrite existsb_exists. split.
  - intros [x [Hx E]]. apply Nat.eqb_eq in E. subst x. exact Hx.
  - intros H. exists c. split; [exact H|apply Nat.eqb_refl].
Qed.

Lemma clients_set_keys (c c' : conn) (i : ClientInfo)
      (m : list (conn * ClientInfo)) :
  In c (map fst (clients_set c' i m)) -> c = c' \/ In c (map fst m).
Proof.
  induction m as [|[c2 i2] m IH]; simpl.
  - intros [E|[]]. left. congruence.
  - destruct (Nat.eqb c' c2) eqn:E; simpl.
    + intros [H|H]; auto.
    + intros [H|H]; [auto|]. destruct (IH H); auto.
Qed.

Lemma clients_delete_keys (c c' : conn) (m : list (conn * ClientInfo)) :
  In c (map fst (clients_delete c' m)) <-> c <> c' /\ In c (map fst m).
Proof.
  unfold clients_delete. rewrite !in_map_iff. split.
  - intros [[k i] [E H]]. simpl in E. subst k. apply filter_In in H.
    destruct H as [H N]. simpl in N. apply negb_true_iff, Nat.eqb_neq in N.
    split; [congruence|]. exists (c, i). auto.
  - intros [N [[k i] [E H]]]. simpl in E. subst k. exists (c, i).
    split; [reflexivity|]. apply filter_In. split; [exact H|]. simpl.
    apply negb_true_iff, Nat.eqb_neq. congruence.
Qed.

Lemma clients_get_delete (c : conn) (m : list (conn * ClientInfo)) :
  clients_get c (clients_delete c m) = None.
Proof.
  induction m as [|[c' i] m IH]; simpl; [reflexivity|].
  destruct (Nat.eqb c c') eqn:E; simpl; [exact IH|]. rewrite E. exact IH.
Qed.

Section Registry.

Variable clock : nat -> string.
Variable fresh_messageId : nat -> string.
Variable js_trim : string -> string.
Variable js_toLowerCase : string -> string.

Lemma clients_dispatch (ws : conn) (info : ClientInfo) (data enriched : obj)
      (h : Hub) :
  clients (dispatch ws info data enriched h) = clients h.
Proof.
  unfold dispatch. cbv zeta.
  repeat match goal with
         | |- clients (if ?b then _ else _) = _ => destruct b
         end;
    first [ reflexivity
          | apply clients_send_to_user
          | apply clients_send_to_others ].
Qed.

(** Only an [auth] frame touches the [clients] map, and only at the entry
    of the connection it arrived on. *)
Lemma clients_on_message (ws : conn) (message : frame) (h : Hub) :
  clients (on_message clock fresh_messageId ws message h) = clients h
  \/ exists info,
       clients (on_message clock fresh_messageId ws message h)
       = clients_set ws info (clients h).
Proof.
  unfold on_message. destruct message as [|data]; [left; reflexivity|].
  destruct (strict_eq (obj_get "type" data) (JStr "auth")).
  - right. exists (mkClientInfo (obj_get "userId" data)
                                (obj_get "username" data)).
    unfold on_auth. cbv zeta. unfold spawn, ws_send. simpl.
    rewrite clients_send_to_others. reflexivity.
  - left. destruct (clients_get ws (clients h)) as [info|]; [|reflexivity].
    destruct (strict_eq (obj_get "type" data) (JStr "ack")
              && truthy (obj_get "messageId" data)).
    + unfold relay_ack.
      destruct (truthy (obj_get "originalSenderId" data)); [|reflexivity].
      apply forEach_frame. intros c h1.
      destruct (clients_get c (clients h1)); [|reflexivity].
      destruct (is_open (ready h1 c) && _); reflexivity.
    + destruct (enrich fresh_messageId info data h) as [e h1] eqn:Ee.
      pose proof (enrich_frame fresh_messageId info data h) as F.
      rewrite Ee in F. simpl in F. destruct F as (_ & _ & F3 & _).
      rewrite clients_dispatch. exact F3.
Qed.

Lemma clients_resume (t : task) (db : Engine) (h : Hub) :
  clients (resume clock js_trim js_toLowerCase t db h) = clients h.
Proof.
  destruct t as [ws info query|ws uid|ws info cid stat]; simpl.
  - unfold handleSearchQuery.
    destruct (searchUsers js_trim js_toLowerCase query db).
    + destruct (is_open (ready h ws)); reflexivity.
    + destruct (is_open (ready (console_error _ h) ws)); reflexivity.
  - unfold sendFriendSuggestions.
    destruct (getSuggestions uid db) as [l failed].
    destruct failed;
      match goal with
      | |- clients (if ?b then _ else _) = _ => destruct b; reflexivity
      end.
  - unfold contact_status_update.
    destruct (updateContactStatus cid stat db) as [[c|]|]; try reflexivity.
    apply forEach_frame. intros x h1.
    destruct (clients_get x (clients h1)); [|reflexivity].
    destruct (is_open (ready h1 x) && _); reflexivity.
Qed.

Lemma registry_resume (t : task) (db : Engine) (h : Hub) :
  sockets (resume clock js_trim js_toLowerCase t db h) = sockets h
  /\ wss_clients (resume clock js_trim js_toLowerCase t db h) = wss_clients h.
Proof.
  destruct t as [ws info query|ws uid|ws info cid stat]; simpl.
  - destruct (guarded_handleSearchQuery js_trim js_toLowerCase ws info query
                db h) as (E1 & E2 & _). auto.
  - destruct (guarded_sendFriendSuggestions ws uid db h) as (E1 & E2 & _).
    auto.
  - destruct (run_update_contact db cid stat) as [rows|] eqn:Er.
    + assert (Hok : run_update_contact db cid stat <> None) by congruence.
      destruct (guarded_contact_status_update clock ws info cid stat db h Hok)
        as (E1 & E2 & _). auto.
    + unfold contact_status_update, updateContactStatus. rewrite Er.
      split; reflexivity.
Qed.

(** One event keeps the registry well formed. *)
Lemma step_well_formed (e : event) (h : Hub) :
  well_formed h ->
  well_formed (step clock fresh_messageId js_trim js_toLowerCase e h).
Proof.
  intros (Hnd & Hlive & Hbound).
  destruct e as [ws|ws message|ws|ws|i db]; simpl.
  - destruct (mem ws (map fst (sockets h))) eqn:Em; [repeat split; assumption|].
    assert (Hnew : ~ In ws (wss_clients h)).
    { intros Hin. apply lookup_state_unknown in Em.
      destruct (Hlive ws Hin) as [E|E]; unfold ready in E; congruence. }
    unfold on_connection, toISOString, ws_send, well_formed, ready. simpl.
    split; [|split].
    + apply NoDup_app; repeat split; auto.
      * constructor; [intros []|constructor].
      * intros x Hx [<-|[]]. auto.
    + intros c Hin. apply in_app_or in Hin. destruct Hin as [Hin|[<-|[]]].
      * rewrite lookup_set_state_other by (intros ->; auto).
        apply Hlive, Hin.
      * left. apply lookup_set_state_same.
    + intros c Hin. apply in_or_app. left. auto.
  - destruct (mem ws (wss_clients h) && is_open (ready h ws)) eqn:E;
      [|repeat split; assumption].
    apply andb_true_iff in E. destruct E as [Em Eo].
    apply mem_In in Em. apply is_open_true in Eo.
    destruct (guarded_on_message clock fresh_messageId ws message h Eo)
      as (E1 & E2 & _).
    unfold well_formed, ready. rewrite E1, E2. split; [exact Hnd|].
    split; [exact Hlive|].
    intros c Hin.
    destruct (clients_on_message ws message h) as [Ec|[info Ec]];
      rewrite Ec in Hin; [auto|].
    apply clients_set_keys in Hin. destruct Hin as [->|Hin]; auto.
  - destruct (mem ws (wss_clients h) && is_open (ready h ws)) eqn:E;
      [|repeat split; assumption].
    unfold well_formed, ready. simpl. split; [exact Hnd|].
    split; [|exact Hbound].
    intros c Hin. destruct (Nat.eq_dec c ws) as [->|N].
    + right. apply lookup_set_state_same.
    + rewrite lookup_set_state_other by exact N. apply Hlive, Hin.
  - destruct (mem ws (wss_clients h)) eqn:Em; [|repeat split; assumption].
    set (h0 := with_wss_clients _ _).
    destruct (guarded_on_close ws h0) as (E1 & E2 & _).
    unfold well_formed, ready. rewrite E1, E2. subst h0. simpl.
    split; [apply NoDup_filter, Hnd|]. split.
    + intros c Hin. apply filter_In in Hin. destruct Hin as [Hin N].
      apply negb_true_iff, Nat.eqb_neq in N.
      rewrite lookup_set_state_other by exact N. apply Hlive, Hin.
    + intros c Hin. unfold on_close in Hin. simpl in Hin.
      match type of Hin with
      | context [clients_delete ws (clients ?x)] =>
          assert (Ex : clients x = clients h)
      end.
      { destruct (clients_get ws (clients h)) as [info|]; [|reflexivity].
        destruct (truthy (userId info)); [|reflexivity].
        rewrite clients_send_to_others. reflexivity. }
      rewrite Ex in Hin. apply clients_delete_keys in Hin.
      destruct Hin as [N Hin]. apply filter_In. split; [auto|].
      apply negb_true_iff, Nat.eqb_neq. exact N.
  - destruct (nth_error (pending h) i) as [t|]; [|repeat split; assumption].
    set (h0 := with_pending _ h).
    destruct (registry_resume t db h0) as (E1 & E2).
    unfold well_formed, ready. rewrite E1, E2, clients_resume.
    repeat split; assumption.
Qed.

(** X13. Every state the hub reaches from its start is well formed:
    [wss.clients] has no duplicate, holds no closed socket, and every
    connection with an identity binding is one of its members. *)
Lemma reachable_well_formed (es : list event) :
  well_formed (run clock fresh_messageId js_trim js_toLowerCase es hub0).
Proof.
  unfold run.
  assert (G : forall h, well_formed h ->
                        well_formed
                          (fold_left
                             (fun h e =>
                                step clock fresh_messageId js_trim
                                     js_toLowerCase e h) es h)).
  { induction es as [|e es IH]; intros h Hw; simpl; [exact Hw|].
    apply IH, step_well_formed, Hw. }
  apply G. repeat split.
  - constructor.
  - intros c [].
  - intros c [].
Qed.

(** X15. Once its [close] event is handled, a connection is out of
    [wss.clients], has no identity binding, and its socket is closed. *)
Lemma closed_connection_is_forgotten (ws : conn) (h : Hub) :
  In ws (wss_clients h) ->
  let h' := step clock fresh_messageId js_trim js_toLowerCase (Close ws) h in
  ~ In ws (wss_clients h') /\ clients_get ws (clients h') = None
  /\ ready h' ws = CLOSED.
Proof.
  intros Hin h'. subst h'. simpl. apply mem_In in Hin. rewrite Hin.
  set (h0 := with_wss_clients _ _).
  destruct (guarded_on_close ws h0) as (E1 & E2 & _).
  unfold ready. rewrite E1, E2. subst h0. simpl. split; [|split].
  - intros H. apply filter_In in H. destruct H as [_ H].
    rewrite Nat.eqb_refl in H. discriminate.
  - unfold on_close. simpl. apply clients_get_delete.
  - apply lookup_set_state_same.
Qed.

End Registry.

(** * Traces on the concrete environment *)

(** C1. A [search-query] answered from the [users] table: the
    [search-results] payload sent to the requester carries the rows as the
    database returned them, [password] column included. *)
Theorem search_results_carry_password_column :
  let h := sample_step (Message 3%nat (Parsed (search_query "bob")))
                       hub_two_devices in
  let bob := plain_user 2 "bob" "$2b$10$bobhash" in
  let bobby := plain_user 3 "bobby" "$2b$10$bobbyhash" in
  nth_error (pending h) 3 = Some (SearchTask 3%nat bea (JStr "bob"))
  /\ sample_sent_by (Settle 3%nat (memory_db sample_users [])) h
     = [mkSent 3%nat OPEN (search_results (JStr "bob") [bob; bobby])]
  /\ obj_get "password" (row_of_user bob) = JStr "$2b$10$bobhash"
  /\ mentions "password" (search_results (JStr "bob") [bob; bobby]) = true.
Proof. vm_compute. repeat split; reflexivity. Qed.

(** C9. The [contact-status-update] error reply: the connection closes
    while the storage call is in flight, the call fails, and [send] is
    called on the closed socket. *)
Theorem contact_error_reply_hits_closed_socket :
  let h := sample_run [ Message 3%nat (Parsed (contact_update 5 "accepted"));
                        Close 3%nat ] hub_two_devices in
  ready h 3%nat = CLOSED
  /\ nth_error (pending h) 3
     = Some (ContactTask 3%nat bea (JNum 5) (JStr "accepted"))
  /\ sample_sent_by (Settle 3%nat broken_db) h
     = [mkSent 3%nat CLOSED contact_status_error].
Proof. vm_compute. repeat split; reflexivity. Qed.

(** Against C2 as stated: user 7 already has connection 1 bound; the
    [auth] of a second device on connection 2 still sends [user-online] to
    connections 1 and 3. *)
Lemma second_device_auth_fires_user_online :
  bound_connections hub_one_device (JNum 7) = [1%nat]
  /\ sample_sent_by (Message 2%nat (auth_frame 7 "ann")) hub_one_device
     = [ mkSent 1%nat OPEN (presence "user-online" (JNum 7) (JStr "ann"));
         mkSent 3%nat OPEN (presence "user-online" (JNum 7) (JStr "ann"));
         mkSent 2%nat OPEN
                (JObj [ ("type", JStr "online-users");
                        ("users", JArr [info_to_js bea]) ]) ].
Proof. vm_compute. split; reflexivity. Qed.

(** Against C3 as stated: user 7 has connections 1 and 2; closing
    connection 1 leaves connection 2 bound, and [user-offline] is sent to
    connections 2 and 3 all the same. *)
Lemma closing_one_device_fires_user_offline :
  bound_connections hub_two_devices (JNum 7) = [1%nat; 2%nat]
  /\ bound_connections (sample_step (Close 1%nat) hub_two_devices) (JNum 7)
     = [2%nat]
  /\ sample_sent_by (Close 1%nat) hub_two_devices
     = [ mkSent 2%nat OPEN (presence "user-offline" (JNum 7) (JStr "ann"));
         mkSent 3%nat OPEN (presence "user-offline" (JNum 7) (JStr "ann")) ].
Proof. vm_compute. repeat split; reflexivity. Qed.

(** Against C4 as stated: the empty query of an authenticated connection
    gets no reply, and no search is left pending that could produce one. *)
Lemma empty_search_query_gets_no_reply :
  let e := Message 3%nat (Parsed (search_query "")) in
  clients_get 3%nat (clients hub_two_devices) = Some bea
  /\ sample_sent_by e hub_two_devices = []
  /\ pending (sample_step e hub_two_devices)
     = [ SuggestTask 1%nat (JNum 7); SuggestTask 3%nat (JNum 9);
         SuggestTask 2%nat (JNum 7) ].
Proof. vm_compute. repeat split; reflexivity. Qed.


(** Against C6 as stated: the search of connection 3 fails in the
    database, and connection 3 receives an [error] envelope. *)
Lemma failed_search_sends_error_envelope :
  let h := sample_step (Message 3%nat (Parsed (search_query "bob")))
                       hub_two_devices in
  nth_error (pending h) 3 = Some (SearchTask 3%nat bea (JStr "bob"))
  /\ searchUsers ascii_trim ascii_lower (JStr "bob") broken_db = None
  /\ sample_sent_by (Settle 3%nat broken_db) h
     = [mkSent 3%nat OPEN search_error].
Proof. vm_compute. repeat split; reflexivity. Qed.

(** Against C7 as stated: connection 3, bound to user 9, addresses a
    [direct-message] to user 9 and receives it itself. *)
Lemma self_addressed_message_is_echoed :
  clients_get 3%nat (clients hub_two_devices) = Some bea
  /\ map to (sample_sent_by (Message 3%nat (Parsed (direct_message 9 "memo")))
                            hub_two_devices)
     = [3%nat].
Proof. vm_compute. split; reflexivity. Qed.

(** Scenario A of the specification: "alice" (user 1) on connection 1
    writes to "bob" (user 2) on connection 2; connection 2 alone receives
    the enriched envelope. Scenario B: connection 2 acknowledges it, and
    connection 1 alone receives the relayed [ack]. *)
Example scenario_A_then_B :
  let h := sample_run [ Connection 1%nat; Connection 2%nat;
                        Message 1%nat (auth_frame 1 "alice");
                        Message 2%nat (auth_frame 2 "bob") ] hub0 in
  let a := Message 1%nat (Parsed (direct_message 2 "hi")) in
  let b := Message 2%nat (Parsed (ack_of "1735689600000-abc0000" 1)) in
  sample_sent_by a h
  = [ mkSent 2%nat OPEN
        (JObj [ ("type", JStr "direct-message"); ("targetUserId", JNum 2);
                ("content", JStr "hi");
                ("sender", JObj [ ("userId", JNum 1);
                                  ("username", JStr "alice") ]);
                ("messageId", JStr "1735689600000-abc0000");
                ("originalSenderId", JNum 1) ]) ]
  /\ map to (sample_sent_by b (sample_step a h)) = [1%nat]
  /\ map (fun s => obj_get "messageId"
                     match body s with JObj o => o | _ => [] end)
         (sample_sent_by b (sample_step a h))
     = [JStr "1735689600000-abc0000"].
Proof. vm_compute. repeat split; reflexivity. Qed.

(** * The theorems at work *)


(** The broadcast theorem on the two-device hub: an [ack] of "bea" without
    [messageId] goes to connections 1 and 2. *)
Lemma ack_without_messageId_witness :
  truthy (obj_get "messageId" (bare_ack 7)) = false
  /\ map to (new_sends hub_two_devices
               (on_message sample_clock sample_id 3%nat
                           (Parsed (bare_ack 7)) hub_two_devices))
     = [1%nat; 2%nat].
Proof.
  split; [reflexivity|].
  edestruct (ack_without_messageId_is_broadcast sample_clock sample_id
               hub_two_devices 3%nat bea (bare_ack 7))
    as (E & _); [reflexivity | reflexivity | reflexivity |].
  rewrite E. reflexivity.
Defined.

(** The directed-delivery theorem on the two-device hub: a message of
    "bea" for user 7 reaches both connections of "ann". *)
Lemma direct_message_witness :
  truthy (obj_get "targetUserId" (direct_message 7 "hi")) = true
  /\ map to (new_sends hub_two_devices
               (on_message sample_clock sample_id 3%nat
                           (Parsed (direct_message 7 "hi")) hub_two_devices))
     = [1%nat; 2%nat].
Proof.
  split; [reflexivity|].
  edestruct (direct_message_reaches_target_connections sample_clock sample_id
               hub_two_devices 3%nat bea (direct_message 7 "hi"))
    as (E & _); [reflexivity | reflexivity | reflexivity |].
  rewrite E. reflexivity.
Defined.

(** The guard theorem on the two-device hub: the empty query of "bea". *)
Lemma empty_search_query_witness :
  truthy (obj_get "query" (search_query "")) = false
  /\ new_sends hub_two_devices
       (on_message sample_clock sample_id 3%nat (Parsed (search_query ""))
                   hub_two_devices)
     = [].
Proof.
  split; [reflexivity|].
  edestruct (empty_search_query_is_dropped sample_clock sample_id
               hub_two_devices 3%nat bea (search_query ""))
    as (E & _); [reflexivity | reflexivity | reflexivity |].
  exact E.
Defined.

(** The announcement theorem on the one-device hub: "ann" authenticates
    on a second connection while connection 1 is bound to her. *)
Lemma auth_announces_witness :
  bound_connections hub_one_device (JNum 7) = [1%nat]
  /\ In (mkSent 1%nat OPEN (presence "user-online" (JNum 7) (JStr "ann")))
        (new_sends hub_one_device
           (on_message sample_clock sample_id 2%nat (auth_frame 7 "ann")
                       hub_one_device)).
Proof.
  split; [reflexivity|].
  edestruct (auth_announces_user_online sample_clock sample_id
               hub_one_device 2%nat
               [ ("type", JStr "auth"); ("userId", JNum 7);
                 ("username", JStr "ann") ])
    as (_ & C); [reflexivity|].
  apply (C 1%nat); [simpl; auto | discriminate | reflexivity].
Defined.

(** The closing theorem on the two-device hub: connection 1 of "ann"
    closes while connection 2 stays bound to her. *)
Lemma close_announces_witness :
  bound_connections hub_two_devices (JNum 7) = [1%nat; 2%nat]
  /\ map to (new_sends hub_two_devices (on_close 1%nat hub_two_devices))
     = [2%nat; 3%nat].
Proof.
  split; [reflexivity|].
  edestruct (close_announces_user_offline hub_two_devices 1%nat ann)
    as (E & _); [reflexivity | reflexivity |].
  rewrite E. reflexivity.
Defined.

(** The failure theorem on the two-device hub with a database that is
    down. *)
Lemma search_failure_witness :
  searchUsers ascii_trim ascii_lower (JStr "bob") broken_db = None
  /\ new_sends hub_two_devices
       (handleSearchQuery ascii_trim ascii_lower 3%nat bea (JStr "bob")
                          broken_db hub_two_devices)
     = [mkSent 3%nat OPEN search_error].
Proof.
  split; [reflexivity|].
  edestruct (search_failure_is_reported_to_requester ascii_trim ascii_lower
               hub_two_devices 3%nat bea (JStr "bob") broken_db)
    as (E & _); [reflexivity|].
  rewrite E. reflexivity.
Defined.


(** * Further properties of the message listener *)

Lemma clients_get_set_same (c : conn) (i : ClientInfo)
      (m : list (conn * ClientInfo)) :
  clients_get c (clients_set c i m) = Some i.
Proof.
  induction m as [|[c' i'] m IH]; simpl.
  - rewrite Nat.eqb_refl. reflexivity.
  - destruct (Nat.eqb c c') eqn:E; simpl; rewrite E; auto.
Qed.

Lemma clients_get_set_other (c c' : conn) (i : ClientInfo)
      (m : list (conn * ClientInfo)) :
  c <> c' -> clients_get c (clients_set c' i m) = clients_get c m.
Proof.
  intros N. induction m as [|[c2 i2] m IH]; simpl.
  - apply Nat.eqb_neq in N. rewrite N. reflexivity.
  - destruct (Nat.eqb c' c2) eqn:E; simpl.
    + apply Nat.eqb_eq in E. subst c2.
      apply Nat.eqb_neq in N. rewrite N. reflexivity.
    + destruct (Nat.eqb c c2); auto.
Qed.

Section ListenerExtras.

Variable clock : nat -> string.
Variable fresh_messageId : nat -> string.

(** X1. A frame other than [auth] that arrives on a connection without an
    identity binding is answered by one [error] envelope ("Not
    authenticated") to that connection; nothing is routed to anybody else,
    no storage call is started and the connection stays unbound. *)
Theorem unauthenticated_frame_is_rejected
        (h : Hub) (ws : conn) (data : obj) :
  clients_get ws (clients h) = None ->
  strict_eq (obj_get "type" data) (JStr "auth") = false ->
  let h' := on_message clock fresh_messageId ws (Parsed data) h in
  new_sends h h' = [mkSent ws (ready h ws) not_authenticated]
  /\ clients h' = clients h /\ pending h' = pending h
  /\ ids_made h' = ids_made h.
Proof.
  intros Hc Ht h'. subst h'. unfold on_message. rewrite Ht, Hc.
  repeat split. apply new_sends_app. reflexivity.
Qed.

(** X2. The identity fields of a routed envelope are set by the hub:
    whatever the frame carried, [sender] is the binding of the connection
    and [originalSenderId] its user id. A [messageId] the client supplied
    is kept, a missing one is generated, and every other field of the
    frame passes through unchanged. *)
Theorem envelope_identity_is_set_by_hub
        (info : ClientInfo) (data : obj) (h : Hub) :
  let e := fst (enrich fresh_messageId info data h) in
  obj_get "sender" e = info_to_js info
  /\ obj_get "originalSenderId" e = userId info
  /\ (truthy (obj_get "messageId" data) = true ->
      obj_get "messageId" e = obj_get "messageId" data)
  /\ (truthy (obj_get "messageId" data) = false ->
      obj_get "messageId" e = JStr (fresh_messageId (ids_made h)))
  /\ (forall k, k <> "sender" -> k <> "messageId" ->
                k <> "originalSenderId" -> obj_get k e = obj_get k data).
Proof.
  intros e. split; [apply enrich_sender|]. split; [|split; [|split]].
  - subst e. unfold enrich.
    destruct (truthy (obj_get "messageId" data)); simpl;
      apply obj_get_set_same.
  - intros T. subst e. rewrite (enrich_keeps_messageId _ _ _ _ T). simpl.
    rewrite !obj_get_set_other by discriminate. reflexivity.
  - intros T. subst e. rewrite (enrich_adds_messageId _ _ _ _ T). simpl.
    rewrite obj_get_set_other by discriminate. apply obj_get_set_same.
  - intros k N1 N2 N3. subst e. unfold enrich.
    destruct (truthy (obj_get "messageId" data)); simpl;
      rewrite !obj_get_set_other by assumption; reflexivity.
Qed.

(** X3. An [auth] frame binds the connection it arrives on to the
    [userId] and [username] it carries (replacing an earlier binding of
    that connection), leaves the binding of every other connection as it
    was, and starts one suggestion request for the new identity. *)
Theorem auth_binds_its_connection_only (h : Hub) (ws : conn) (data : obj) :
  obj_get "type" data = JStr "auth" ->
  let info := mkClientInfo (obj_get "userId" data) (obj_get "username" data) in
  let h' := on_message clock fresh_messageId ws (Parsed data) h in
  clients_get ws (clients h') = Some info
  /\ (forall c, c <> ws ->
                clients_get c (clients h') = clients_get c (clients h))
  /\ pending h' = pending h ++ [SuggestTask ws (userId info)].
Proof.
  intros Ht info h'.
  assert (E : clients h' = clients_set ws info (clients h)
              /\ pending h' = pending h ++ [SuggestTask ws (userId info)]).
  { subst h'. unfold on_message. rewrite Ht. decide_types.
    unfold on_auth. fold info. cbv zeta. unfold spawn, ws_send. simpl.
    rewrite send_to_others_spec. simpl. split; reflexivity. }
  destruct E as [E1 E2]. rewrite E1. split; [apply clients_get_set_same|].
  split; [|exact E2].
  intros c N. apply clients_get_set_other. exact N.
Qed.

(** X4. Only [auth] binds: a frame of any other type, or one that cannot
    be parsed, leaves the [clients] map exactly as it was. *)
Theorem only_auth_changes_bindings (h : Hub) (ws : conn) (message : frame) :
  (forall data, message = Parsed data ->
                strict_eq (obj_get "type" data) (JStr "auth") = false) ->
  clients (on_message clock fresh_messageId ws message h) = clients h.
Proof.
  intros Hna. destruct message as [|data]; [reflexivity|].
  specialize (Hna data eq_refl). unfold on_message. rewrite Hna.
  destruct (clients_get ws (clients h)) as [info|]; [|reflexivity].
  destruct (strict_eq (obj_get "type" data) (JStr "ack")
            && truthy (obj_get "messageId" data)).
  - unfold relay_ack.
    destruct (truthy (obj_get "originalSenderId" data)); [|reflexivity].
    apply forEach_frame. intros c h1.
    destruct (clients_get c (clients h1)); [|reflexivity].
    destruct (is_open (ready h1 c) && _); reflexivity.
  - destruct (enrich fresh_messageId info data h) as [e h1] eqn:Ee.
    pose proof (enrich_frame fresh_messageId info data h) as F.
    rewrite Ee in F. simpl in F. destruct F as (_ & _ & F3 & _).
    rewrite clients_dispatch. exact F3.
Qed.

(** The two loops as seen from the state before enrichment. *)
Lemma routed_to_user (h : Hub) (info : ClientInfo) (data : obj)
      (target payload : jsval) :
  new_sends h (send_to_user target payload
                 (snd (enrich fresh_messageId info data h)))
  = deliveries payload (filter (open_bound_to h target) (wss_clients h)).
Proof.
  destruct (enrich_frame fresh_messageId info data h)
    as (E1 & E2 & E3 & _ & E5 & _).
  apply new_sends_app. rewrite send_to_user_spec. simpl outbox.
  rewrite E2, E5, (open_bound_to_ext h _ _ E1 E3). reflexivity.
Qed.

Lemma routed_to_others (h : Hub) (ws : conn) (info : ClientInfo) (data : obj)
      (payload : jsval) :
  new_sends h (send_to_others ws payload
                 (snd (enrich fresh_messageId info data h)))
  = deliveries payload (filter (other_open h ws) (wss_clients h)).
Proof.
  destruct (enrich_frame fresh_messageId info data h)
    as (E1 & E2 & _ & _ & E5 & _).
  apply new_sends_app. rewrite send_to_others_spec. simpl outbox.
  rewrite E2, E5, (other_open_ext h _ ws E1). reflexivity.
Qed.

Lemma routed_nowhere (h : Hub) (info : ClientInfo) (data : obj) :
  new_sends h (snd (enrich fresh_messageId info data h)) = [].
Proof.
  destruct (enrich_frame fresh_messageId info data h)
    as (_ & _ & _ & _ & E5 & _).
  apply new_sends_app. rewrite E5, app_nil_r. reflexivity.
Qed.

(** X5. [typing-indicator], [follow-request] and [follow-accept] frames
    follow the rule of [direct-message]: with a [targetUserId] the enriched
    envelope goes to exactly the open connections bound to that user;
    without one the frame is dropped and nothing is sent, not even an
    error. *)
Theorem targeted_frames_reach_target_or_vanish
        (h : Hub) (ws : conn) (info : ClientInfo) (data : obj) :
  clients_get ws (clients h) = Some info ->
  obj_get "type" data = JStr "typing-indicator"
  \/ obj_get "type" data = JStr "follow-request"
  \/ obj_get "type" data = JStr "follow-accept" ->
  let U := obj_get "targetUserId" data in
  let envelope := JObj (fst (enrich fresh_messageId info data h)) in
  new_sends h (on_message clock fresh_messageId ws (Parsed data) h)
  = if truthy U
    then deliveries envelope (filter (open_bound_to h U) (wss_clients h))
    else [].
Proof.
  intros Hc Ht U envelope.
  rewrite (on_message_dispatch clock fresh_messageId h ws info data Hc);
    [| destruct Ht as [Ht|[Ht|Ht]]; rewrite Ht; reflexivity
     | destruct Ht as [Ht|[Ht|Ht]]; rewrite Ht; reflexivity ].
  unfold dispatch.
  destruct Ht as [Ht|[Ht|Ht]]; rewrite Ht; decide_types; fold U;
    destruct (truthy U);
    first [apply routed_to_user | apply routed_nowhere].
Qed.

(** X6. The notifications for a content owner ([like-post], [like-story],
    [like-reel], [comment]) go to exactly the open connections bound to
    [ownerId], and only when the frame names the content ([postId],
    [storyId], [reelId]; [contentId] and [contentType] for a comment) and
    the owner; otherwise the frame is dropped without any reply. *)
Theorem owner_notifications_need_content_and_owner
        (h : Hub) (ws : conn) (info : ClientInfo) (data : obj) (named : bool) :
  clients_get ws (clients h) = Some info ->
  (obj_get "type" data = JStr "like-post"
   /\ named = truthy (obj_get "postId" data))
  \/ (obj_get "type" data = JStr "like-story"
      /\ named = truthy (obj_get "storyId" data))
  \/ (obj_get "type" data = JStr "like-reel"
      /\ named = truthy (obj_get "reelId" data))
  \/ (obj_get "type" data = JStr "comment"
      /\ named = truthy (obj_get "contentId" data)
                 && truthy (obj_get "contentType" data)) ->
  let owner := obj_get "ownerId" data in
  let envelope := JObj (fst (enrich fresh_messageId info data h)) in
  new_sends h (on_message clock fresh_messageId ws (Parsed data) h)
  = if named && truthy owner
    then deliveries envelope (filter (open_bound_to h owner) (wss_clients h))
    else [].
Proof.
  intros Hc Ht owner envelope.
  rewrite (on_message_dispatch clock fresh_messageId h ws info data Hc);
    [| destruct Ht as [[Ht _]|[[Ht _]|[[Ht _]|[Ht _]]]]; rewrite Ht;
       reflexivity
     | destruct Ht as [[Ht _]|[[Ht _]|[[Ht _]|[Ht _]]]]; rewrite Ht;
       reflexivity ].
  unfold dispatch.
  destruct Ht as [[Ht Hn]|[[Ht Hn]|[[Ht Hn]|[Ht Hn]]]]; rewrite Ht;
    decide_types; rewrite <- Hn; fold owner;
    destruct (named && truthy owner);
    first [apply routed_to_user | apply routed_nowhere].
Qed.

(** X7. A frame of an authenticated connection whose [type] is none of
    the handled ones (or is missing) falls to the default case: the
    enriched envelope goes to every open connection except the sender's
    own, bound or not, and never back to the sender. *)
Theorem unhandled_types_are_broadcast
        (h : Hub) (ws : conn) (info : ClientInfo) (data : obj) :
  clients_get ws (clients h) = Some info ->
  strict_eq (obj_get "type" data) (JStr "auth") = false ->
  strict_eq (obj_get "type" data) (JStr "ack")
  && truthy (obj_get "messageId" data) = false ->
  existsb (fun t => strict_eq (obj_get "type" data) (JStr t)) handled_types
  = false ->
  let envelope := JObj (fst (enrich fresh_messageId info data h)) in
  let out := new_sends h (on_message clock fresh_messageId ws (Parsed data) h) in
  out = deliveries envelope (filter (other_open h ws) (wss_clients h))
  /\ ~ In ws (map to out).
Proof.
  intros Hc Ha Hk Hu envelope out.
  assert (E : out = deliveries envelope
                      (filter (other_open h ws) (wss_clients h))).
  { subst out.
    rewrite (on_message_dispatch clock fresh_messageId h ws info data Hc Ha Hk).
    unfold dispatch. cbv zeta. simpl in Hu.
    repeat (apply orb_false_iff in Hu; destruct Hu as [?H Hu]).
    repeat match goal with
           | H : strict_eq _ _ = false |- _ => rewrite H; clear H
           end.
    apply routed_to_others. }
  split; [exact E|]. rewrite E, deliveries_to. intros Hin.
  apply filter_In in Hin. destruct Hin as [_ Hin].
  apply other_open_true in Hin. destruct Hin; auto.
Qed.

End ListenerExtras.

(** * Further properties of the asynchronous helpers *)

Lemma mentions_nullable (k : string) (o : option string) :
  mentions k (nullable o) = false.
Proof. destruct o; reflexivity. Qed.

(** A row without its [password] column mentions no password at all. *)
Lemma stripped_row_is_clean (u : User) :
  mentions "password" (JObj (obj_remove "password" (row_of_user u))) = false.
Proof.
  destruct u. cbn. rewrite !mentions_nullable. reflexivity.
Qed.


Lemma firstn_incl {A : Type} (n : nat) (l : list A) (x : A) :
  In x (firstn n l) -> In x l.
Proof.
  intros H. rewrite <- (firstn_skipn n l). apply in_or_app. left. exact H.
Qed.

Section HelperExtras.

Variable clock : nat -> string.
Variable js_trim : string -> string.
Variable js_toLowerCase : string -> string.

(** X8. When the search succeeds, the requesting connection alone gets one
    [search-results] envelope, and only if it is still open (otherwise the
    result is dropped). The envelope echoes the query and lists at most
    five of the rows the storage returned, in their order, none of them
    with the requester's own user id. *)
Theorem search_results_go_to_requester_only
        (h : Hub) (ws : conn) (info : ClientInfo) (query : jsval) (db : Engine)
        (rows : list User) :
  searchUsers js_trim js_toLowerCase query db = Some rows ->
  let results :=
    firstn 5 (filter (fun u => negb (strict_eq (JNum (id u)) (userId info)))
                     rows) in
  let h' := handleSearchQuery js_trim js_toLowerCase ws info query db h in
  new_sends h h'
  = (if is_open (ready h ws)
     then [mkSent ws OPEN (search_results query results)] else [])
  /\ (List.length results <= 5)%nat
  /\ (forall u, In u results ->
                In u rows /\ strict_eq (JNum (id u)) (userId info) = false)
  /\ console_errors h' = console_errors h.
Proof.
  intros Hs results h'. subst h'. unfold handleSearchQuery. rewrite Hs.
  fold results. split; [|split; [|split]].
  - destruct (is_open (ready h ws)) eqn:E.
    + apply new_sends_app. unfold ws_send. simpl.
      rewrite (is_open_true _ E). reflexivity.
    + apply new_sends_app. rewrite app_nil_r. reflexivity.
  - subst results. apply firstn_le_length.
  - intros u Hu. subst results. apply firstn_incl in Hu.
    apply filter_In in Hu. destruct Hu as [Hu Hn].
    apply negb_true_iff in Hn. auto.
  - destruct (is_open (ready h ws)); reflexivity.
Qed.

(** X9. [searchUsers] bounds its answer: against a database that honours
    [LIMIT], it returns at most 50 rows, and at most 20 when the query is a
    non-empty string that is not blank. A blank string (empty after [trim])
    and any falsy query ask for the first 50 users; a truthy query that is
    not a string is rejected before the database is asked. *)
Theorem searchUsers_is_bounded (query : jsval) (db : Engine) :
  honours_limit db ->
  (forall rows, searchUsers js_trim js_toLowerCase query db = Some rows ->
                (List.length rows <= 50)%nat)
  /\ (forall s rows, query = JStr s -> s <> "" -> js_trim s <> "" ->
                     searchUsers js_trim js_toLowerCase query db = Some rows ->
                     (List.length rows <= 20)%nat)
  /\ (truthy query = false \/ (exists s, query = JStr s /\ js_trim s = "") ->
      searchUsers js_trim js_toLowerCase query db
      = run_users db (SelectUsers 50))
  /\ (truthy query = true -> (forall s, query <> JStr s) ->
      searchUsers js_trim js_toLowerCase query db = None).
Proof.
  intros Hl. split; [|split; [|split]].
  - intros rows. unfold searchUsers.
    destruct (truthy query); simpl.
    + destruct query; try discriminate.
      destruct (String.eqb (js_trim s) "").
      * intros E. apply (Hl _ _ E).
      * intros E. apply Hl in E. simpl in E. lia.
    + intros E. apply (Hl _ _ E).
  - intros s rows -> Hne Hb. unfold searchUsers. simpl.
    apply String.eqb_neq in Hne, Hb. rewrite Hne, Hb. simpl.
    intros E. apply (Hl _ _ E).
  - intros [T|[s [-> Hb]]]; unfold searchUsers.
    + rewrite T. reflexivity.
    + destruct (truthy (JStr s)); simpl; [|reflexivity].
      rewrite Hb. reflexivity.
  - intros T Hns. unfold searchUsers. rewrite T. simpl.
    destruct query; try reflexivity. exfalso. apply (Hns s). reflexivity.
Qed.

(** X10. [sendFriendSuggestions] sends at most one envelope, to the
    connection that authenticated and only while it is open. The envelope
    lists at most five suggestions and mentions no [password] property
    anywhere; when the database fails the list is empty and the failure is
    only logged. *)
Theorem friend_suggestions_are_clean
        (h : Hub) (ws : conn) (uid : jsval) (db : Engine) :
  let h' := sendFriendSuggestions ws uid db h in
  let suggestions := firstn 5 (fst (getSuggestions uid db)) in
  new_sends h h'
  = (if is_open (ready h ws)
     then [mkSent ws OPEN
             (JObj [ ("type", JStr "friend-suggestions");
                     ("suggestions", JArr (map JObj suggestions)) ])]
     else [])
  /\ (List.length suggestions <= 5)%nat
  /\ mentions "password" (JArr (map JObj suggestions)) = false
  /\ (run_users db (SelectUsersNe uid 10) = None ->
      suggestions = []
      /\ console_errors h'
         = console_errors h ++ ["Error getting user suggestions:"%string]).
Proof.
  intros h' suggestions. subst h' suggestions.
  unfold sendFriendSuggestions, getSuggestions.
  destruct (run_users db (SelectUsersNe uid 10)) as [allUsers|];
    cbn [fst]; cbv iota beta.
  - split; [|split; [|split]].
    + destruct (is_open (ready h ws)) eqn:E.
      * apply new_sends_app. unfold ws_send. simpl outbox.
        rewrite (is_open_true _ E). reflexivity.
      * apply new_sends_app. rewrite app_nil_r. reflexivity.
    + apply firstn_le_length.
    + match goal with
      | |- mentions ?k (JArr ?l) = false =>
          change (existsb (mentions k) l = false)
      end.
      apply not_true_is_false. intros Hm.
      apply existsb_exists in Hm. destruct Hm as [v [Hv Hm]].
      apply in_map_iff in Hv. destruct Hv as [row [<- Hrow]].
      apply firstn_incl in Hrow. apply in_map_iff in Hrow.
      destruct Hrow as [u [<- _]].
      rewrite stripped_row_is_clean in Hm. discriminate.
    + discriminate.
  - split; [|split; [|split]].
    + assert (R : ready (console_error "Error getting user suggestions:" h) ws
                  = ready h ws) by reflexivity.
      rewrite R. destruct (is_open (ready h ws)) eqn:E.
      * apply new_sends_app. unfold ws_send. simpl outbox. unfold ready.
        simpl sockets. fold (ready h ws). rewrite (is_open_true _ E).
        reflexivity.
      * apply new_sends_app. simpl. rewrite app_nil_r. reflexivity.
    + simpl. lia.
    + reflexivity.
    + intros _. split; [reflexivity|].
      destruct (is_open (ready (console_error _ h) ws)); reflexivity.
Qed.

(** X11. When the contact update succeeds, [contact-status-changed] goes
    to exactly the open connections bound to the acting user or to the
    user the contact row points to ([contactId]), once each with its own
    timestamp, naming the row, its new status and the acting user. When no
    row matches the id nothing is sent at all. The acting user's id is a
    primitive value (a number, a string, ...), as [===] on it is read. *)
Theorem contact_status_change_reaches_both_parties
        (h : Hub) (ws : conn) (info : ClientInfo) (cid stat : jsval)
        (db : Engine) (rows : list Contact) :
  primitive (userId info) = true ->
  run_update_contact db cid stat = Some rows ->
  let h' := contact_status_update clock ws info cid stat db h in
  match rows with
  | [] => new_sends h h' = []
  | updated :: _ =>
      new_sends h h'
      = stamped clock
          (contact_status_changed updated (userId info)) (clock_reads h)
          (filter (fun c =>
                     open_bound_to h (userId info) c
                     || open_bound_to h (JNum (contact_contactId updated)) c)
                  (wss_clients h))
  end
  /\ console_errors h' = console_errors h.
Proof.
  intros _ Hr h'. subst h'. unfold contact_status_update, updateContactStatus.
  rewrite Hr. destruct rows as [|updated rest]; simpl hd_error; cbv iota.
  - split; [|reflexivity]. apply new_sends_app. rewrite app_nil_r.
    reflexivity.
  - split.
    + apply new_sends_app.
      apply (forEach_stamped_send clock
               (fun c => open_bound_to h (userId info) c
                         || open_bound_to h
                              (JNum (contact_contactId updated)) c)
               (contact_status_changed updated (userId info)) _ h); auto.
      * intros c Hb. unfold open_bound_to in Hb.
        destruct (clients_get c (clients h)); [|discriminate].
        destruct (is_open (ready h c)) eqn:E; [|discriminate].
        apply is_open_true, E.
      * intros c h1 E1 E2. unfold open_bound_to, ready. rewrite E1, E2.
        destruct (clients_get c (clients h)); [|reflexivity].
        rewrite <- andb_orb_distrib_r. reflexivity.
    + apply (forEach_frame console_errors). intros c h1.
      destruct (clients_get c (clients h1)); [|reflexivity].
      destruct (is_open (ready h1 c) && _); reflexivity.
Qed.

End HelperExtras.

(** * Sends and the state of their socket *)









Section RecordedHandlers.

Variable clock : nat -> string.
Variable fresh_messageId : nat -> string.
Variable js_trim : string -> string.
Variable js_toLowerCase : string -> string.










Lemma clients_get_absent (c : conn) (m : list (conn * ClientInfo)) :
  ~ In c (map fst m) -> clients_get c m = None.
Proof.
  induction m as [|[c' i] m IH]; simpl; [reflexivity|].
  intros N. destruct (Nat.eqb c c') eqn:E.
  - apply Nat.eqb_eq in E. subst c'. exfalso. apply N. left. reflexivity.
  - apply IH. intros H. apply N. right. exact H.
Qed.

(** X16. A socket the server has just accepted is greeted before anything
    else: the one envelope sent is [connection {status: connected, time}],
    addressed to it and sent while it is open; it joins [wss.clients]
    without any identity binding. *)
Theorem new_connection_is_greeted_unbound (h : Hub) (ws : conn) :
  well_formed h ->
  mem ws (map fst (sockets h)) = false ->
  let h' := step clock fresh_messageId js_trim js_toLowerCase
                 (Connection ws) h in
  sent_by clock fresh_messageId js_trim js_toLowerCase (Connection ws) h
  = [mkSent ws OPEN
       (JObj [ ("type", JStr "connection"); ("status", JStr "connected");
               ("time", JStr (clock (clock_reads h))) ])]
  /\ In ws (wss_clients h') /\ ready h' ws = OPEN
  /\ clients_get ws (clients h') = None.
Proof.
  intros (Hnd & Hlive & Hbound) Em h'. subst h'. unfold sent_by. simpl.
  rewrite Em. unfold on_connection, toISOString, ws_send, ready. simpl.
  rewrite lookup_set_state_same. split; [|split; [|split]].
  - rewrite skipn_app, skipn_all, Nat.sub_diag. reflexivity.
  - apply in_or_app. right. left. reflexivity.
  - reflexivity.
  - apply clients_get_absent. intros Hin. apply Hbound in Hin.
    apply lookup_state_unknown in Em.
    destruct (Hlive ws Hin) as [E|E]; unfold ready in E; congruence.
Qed.

End RecordedHandlers.

(** * The HTTP routes that write into the hub *)

Section RouteExtras.

Variable js_trim : string -> string.
Variable js_toLowerCase : string -> string.

(** X17. [GET /api/users/search] of an authenticated user. A blank query
    is answered with the empty list without asking the storage and
    without any WebSocket traffic. Otherwise the answer lists the rows
    found except the requester's own, the first five of them are mirrored
    as one [search-results] envelope to each open connection bound to the
    requester and to nobody else; a storage failure gives status 500 and
    no envelope. *)
Theorem search_route_mirrors_to_own_connections
        (me : User) (q : option string) (db : Engine) (h : Hub) :
  let query := match q with Some s => s | None => "" end in
  let res := fst (api_users_search js_trim js_toLowerCase (Some me) q db h) in
  let h' := snd (api_users_search js_trim js_toLowerCase (Some me) q db h) in
  (query = "" \/ js_trim query = "" ->
   res = mkResponse 200 (JArr []) /\ h' = h)
  /\ (query <> "" -> js_trim query <> "" ->
      forall users,
        searchUsers js_trim js_toLowerCase (JStr query) db = Some users ->
        let found := filter (fun user => negb (id user =? id me)) users in
        res = mkResponse 200 (JArr (map (fun u => JObj (row_of_user u)) found))
        /\ new_sends h h'
           = deliveries (search_results (JStr query) (firstn 5 found))
               (filter (open_bound_to h (JNum (id me))) (wss_clients h))
        /\ (forall u, In u found -> id u <> id me))
  /\ (query <> "" -> js_trim query <> "" ->
      searchUsers js_trim js_toLowerCase (JStr query) db = None ->
      status_code res = 500%nat /\ new_sends h h' = []).
Proof.
  intros query res h'. subst res h'. unfold api_users_search. fold query.
  split; [|split].
  - intros B.
    assert (E : String.eqb query "" || String.eqb (js_trim query) "" = true).
    { apply orb_true_iff. destruct B as [B|B]; rewrite B; auto. }
    rewrite E. split; reflexivity.
  - intros N1 N2 users Hs.
    apply String.eqb_neq in N1, N2. rewrite N1, N2, Hs. simpl.
    split; [reflexivity|]. split.
    + apply new_sends_app. rewrite send_to_user_spec. reflexivity.
    + intros u Hu. apply filter_In in Hu. destruct Hu as [_ Hu].
      apply negb_true_iff, Z.eqb_neq in Hu. exact Hu.
  - intros N1 N2 Hs. apply String.eqb_neq in N1, N2.
    rewrite N1, N2, Hs. simpl. split; [reflexivity|].
    apply new_sends_app. rewrite app_nil_r. reflexivity.
Qed.






End RouteExtras.

(** * The stories table and the hourly sweep *)

Lemma stories_by_id_update_same (storyId : Z) (f : Story -> Story)
      (tbl : list Story) :
  (forall s, story_id (f s) = story_id s) ->
  stories_by_id storyId (update_story storyId f tbl)
  = map f (stories_by_id storyId tbl).
Proof.
  intros Hf. unfold stories_by_id, update_story.
  induction tbl as [|s tbl IH]; simpl; [reflexivity|].
  destruct (story_id s =? storyId) eqn:E; simpl.
  - rewrite Hf, E. simpl. rewrite IH. reflexivity.
  - rewrite E. exact IH.
Qed.


Lemma hd_error_map {A B : Type} (f : A -> B) (l : list A) :
  hd_error (map f l) = option_map f (hd_error l).
Proof. destruct l; reflexivity. Qed.




(** X22. [deleteStory] removes a story only for its owner: it answers
    [true] exactly when a story with that id belongs to the caller, the
    stories of every other user stay in the table whatever id is given, an
    answer of [false] means the table is unchanged, and a repeated call
    answers [false]. *)
Theorem only_the_owner_deletes_a_story (storyId uid : Z) (tbl : list Story) :
  let ok := fst (deleteStory storyId uid tbl) in
  let tbl' := snd (deleteStory storyId uid tbl) in
  (ok = true <->
   exists s, In s tbl /\ story_id s = storyId /\ story_userId s = uid)
  /\ (forall s, In s tbl -> story_userId s <> uid -> In s tbl')
  /\ (forall s, In s tbl' ->
                In s tbl /\ ~ (story_id s = storyId /\ story_userId s = uid))
  /\ (ok = false -> tbl' = tbl)
  /\ fst (deleteStory storyId uid tbl') = false.
Proof.
  intros ok tbl'. subst ok tbl'. unfold deleteStory. cbn [fst snd].
  set (hit := fun s => (story_id s =? storyId) && (story_userId s =? uid)).
  assert (Hhit : forall s, hit s = true <->
                           story_id s = storyId /\ story_userId s = uid).
  { intros s. unfold hit. rewrite andb_true_iff, !Z.eqb_eq. reflexivity. }
  split; [|split; [|split; [|split]]].
  - destruct (filter hit tbl) as [|s l] eqn:F; cbn [hd_error].
    + split; [discriminate|]. intros [s [Hs Hx]].
      assert (Hin : In s (filter hit tbl))
        by (apply filter_In; split; [exact Hs|apply Hhit, Hx]).
      rewrite F in Hin. contradiction.
    + split; [|reflexivity]. intros _. exists s.
      assert (Hin : In s (filter hit tbl)) by (rewrite F; left; reflexivity).
      apply filter_In in Hin. destruct Hin as [Hs Hx]. apply Hhit in Hx.
      tauto.
  - intros s Hs N. apply filter_In. split; [exact Hs|].
    apply negb_true_iff, not_true_is_false. intros Hx. apply Hhit in Hx.
    tauto.
  - intros s Hs. apply filter_In in Hs. destruct Hs as [Hs Hx].
    split; [exact Hs|]. intros C. apply Hhit in C. unfold hit in C.
    cbv beta in Hx. rewrite C in Hx. discriminate.
  - destruct (filter hit tbl) as [|s l] eqn:F; cbn [hd_error];
      [|discriminate].
    intros _. induction tbl as [|s tbl IH]; simpl; [reflexivity|].
    simpl in F. destruct (hit s) eqn:Eh; [discriminate|].
    unfold hit in Eh. rewrite Eh. simpl. rewrite IH by exact F.
    reflexivity.
  - rewrite (filter_none hit); [reflexivity|].
    intros s Hs. apply filter_In in Hs.
    destruct Hs as [_ Hs]. apply negb_true_iff in Hs. exact Hs.
Qed.

(** X23. The sweep deletes exactly the stories whose expiry lies strictly
    before [now]: the count it returns is the number of rows removed,
    stories without expiry are never removed, no story that [getStories]
    still selects at [now] is lost, a story that expires exactly at [now]
    is kept although [getStories] no longer selects it, and a second sweep
    at the same time removes nothing. *)
Theorem sweep_removes_exactly_the_expired (now : Z) (tbl : list Story) :
  let n := fst (deleteExpiredStories now tbl) in
  let tbl' := snd (deleteExpiredStories now tbl) in
  (n + List.length tbl' = List.length tbl)%nat
  /\ (forall s, In s tbl' <-> In s tbl /\ expired now s = false)
  /\ filter (unexpired now) tbl' = filter (unexpired now) tbl
  /\ (forall s, In s tbl -> expiresAt s = Some now ->
                In s tbl' /\ unexpired now s = false)
  /\ deleteExpiredStories now tbl' = (0%nat, tbl').
Proof.
  intros n tbl'. subst n tbl'. unfold deleteExpiredStories. cbn [fst snd].
  split; [|split; [|split; [|split]]].
  - induction tbl as [|s tbl IH]; simpl; [reflexivity|].
    destruct (expired now s); simpl; lia.
  - intros s. rewrite filter_In, negb_true_iff. reflexivity.
  - induction tbl as [|s tbl IH]; simpl; [reflexivity|].
    destruct (expired now s) eqn:E; simpl.
    + assert (U : unexpired now s = false).
      { unfold expired, unexpired in *. destruct (expiresAt s); [|discriminate].
        apply Z.ltb_lt in E. apply Z.ltb_ge. lia. }
      rewrite U. exact IH.
    + destruct (unexpired now s); [rewrite IH|]; auto.
  - intros s Hs E. unfold expired, unexpired. rewrite filter_In. rewrite E.
    rewrite Z.ltb_irrefl. auto.
  - f_equal.
    + rewrite filter_none; [reflexivity|]. intros s Hs.
      apply filter_In in Hs. destruct Hs as [_ Hs]. apply negb_true_iff, Hs.
    + induction tbl as [|s tbl IH]; simpl; [reflexivity|].
      destruct (expired now s) eqn:E; simpl; [exact IH|].
      rewrite E. simpl. rewrite IH. reflexivity.
Qed.

Section SweepExtras.

Variable clock : nat -> string.

(** X24. The hourly job tells every open connection, authenticated or
    not, how many stories were swept, each in its own [stories-cleanup]
    envelope; it stays silent when nothing was deleted and when the
    storage call failed (the failure is only logged). With the count of
    [deleteExpiredStories], a table without expired story therefore
    causes no traffic. *)
Theorem sweep_job_tells_every_open_connection (h : Hub) :
  (forall n,
     new_sends h (stories_cleanup clock (Some n) h)
     = if Nat.ltb 0 n
       then stamped clock (stories_cleanup_event n) (clock_reads h)
                    (filter (fun c => is_open (ready h c)) (wss_clients h))
       else [])
  /\ new_sends h (stories_cleanup clock None h) = []
  /\ console_errors (stories_cleanup clock None h)
     = console_errors h ++ ["Error cleaning up expired stories:"%string]
  /\ (forall now tbl,
        (forall s, In s tbl -> expired now s = false) ->
        new_sends h (stories_cleanup clock
                       (Some (fst (deleteExpiredStories now tbl))) h) = []).
Proof.
  assert (A : forall n,
     new_sends h (stories_cleanup clock (Some n) h)
     = if Nat.ltb 0 n
       then stamped clock (stories_cleanup_event n) (clock_reads h)
                    (filter (fun c => is_open (ready h c)) (wss_clients h))
       else []).
  { intros n. unfold stories_cleanup. destruct (Nat.ltb 0 n).
    - apply new_sends_app.
      apply (forEach_stamped_send clock (fun c => is_open (ready h c))
               (stories_cleanup_event n) _ h); auto.
      + intros c. apply is_open_true.
      + intros c h1 E1 _. unfold ready. rewrite E1. reflexivity.
    - apply new_sends_app. rewrite app_nil_r. reflexivity. }
  split; [exact A|]. split; [|split].
  - apply new_sends_app. simpl. rewrite app_nil_r. reflexivity.
  - reflexivity.
  - intros now tbl Hnone. rewrite A. unfold deleteExpiredStories. cbn [fst].
    rewrite (filter_none _ _ Hnone). reflexivity.
Qed.

End SweepExtras.

(** * One cycle of the assistant *)

(** A loop whose body leaves sockets and bindings alone and whose sends,
    seen through [proj], depend on the element only. *)
Lemma forEach_projection {A B : Type} (proj : sent -> B) (g : A -> list B)
      (f : A -> Hub -> Hub) (h0 : Hub) :
  (forall x h, sockets h = sockets h0 -> clients h = clients h0 ->
               sockets (f x h) = sockets h /\ clients (f x h) = clients h
               /\ exists l, outbox (f x h) = outbox h ++ l
                            /\ map proj l = g x
                            /\ Forall (fun s => state_at_send s = OPEN) l) ->
  forall l h, sockets h = sockets h0 -> clients h = clients h0 ->
    sockets (forEach l f h) = sockets h /\ clients (forEach l f h) = clients h
    /\ exists L, outbox (forEach l f h) = outbox h ++ L
                 /\ map proj L = flat_map g l
                 /\ Forall (fun s => state_at_send s = OPEN) L.
Proof.
  intros Hf. induction l as [|x l IH]; intros h Hs Hc; simpl.
  - split; [reflexivity|]. split; [reflexivity|]. exists [].
    rewrite app_nil_r. split; [reflexivity|]. split; [reflexivity|].
    constructor.
  - destruct (Hf x h Hs Hc) as (S1 & C1 & l1 & O1 & P1 & F1).
    destruct (IH (f x h)) as (S2 & C2 & l2 & O2 & P2 & F2);
      [congruence|congruence|].
    split; [congruence|]. split; [congruence|].
    exists (l1 ++ l2). rewrite O2, O1, app_assoc, map_app, P1, P2.
    split; [reflexivity|]. split; [reflexivity|]. apply Forall_app. auto.
Qed.

Lemma strict_eq_true_eq (a b : jsval) : strict_eq a b = true -> a = b.
Proof.
  destruct a, b; simpl; try discriminate; intros E; try reflexivity.
  - apply Bool.eqb_prop in E. congruence.
  - apply Z.eqb_eq in E. congruence.
  - apply String.eqb_eq in E. congruence.
Qed.

Lemma strict_eq_sym (a b : jsval) : strict_eq a b = strict_eq b a.
Proof.
  destruct a, b; simpl; try reflexivity.
  - destruct b, b0; reflexivity.
  - apply Z.eqb_sym.
  - apply String.eqb_sym.
Qed.

Section BotExtras.

Variable clock : nat -> string.
Variable date_now : nat -> string.
Variable js_string : jsval -> string.

Lemma deliver_assistant_message_spec (uid : jsval) (message : string)
      (h0 h : Hub) :
  sockets h = sockets h0 -> clients h = clients h0 ->
  let h' := deliver_assistant_message clock date_now uid message h in
  sockets h' = sockets h /\ clients h' = clients h
  /\ console_errors h' = console_errors h
  /\ exists L, outbox h' = outbox h ++ L
               /\ map receipt L
                  = map (fun c => (c, JStr message)) (open_entries h0 uid)
               /\ Forall (fun s => state_at_send s = OPEN) L.
Proof.
  intros Hs Hc h'. subst h'. unfold deliver_assistant_message.
  set (f := fun (e : conn * ClientInfo) (h1 : Hub) => _).
  set (g := fun e : conn * ClientInfo =>
              if strict_eq (userId (snd e)) uid && is_open (ready h0 (fst e))
              then [(fst e, JStr message)] else []).
  assert (Hbody : forall e h1, sockets h1 = sockets h0 ->
                    clients h1 = clients h0 ->
                    sockets (f e h1) = sockets h1
                    /\ clients (f e h1) = clients h1
                    /\ exists l, outbox (f e h1) = outbox h1 ++ l
                                 /\ map receipt l = g e
                                 /\ Forall (fun s => state_at_send s = OPEN) l).
  { intros e h1 E1 E2. subst f g. cbv beta.
    assert (R : ready h1 (fst e) = ready h0 (fst e))
      by (unfold ready; rewrite E1; reflexivity).
    rewrite R.
    destruct (strict_eq (userId (snd e)) uid); simpl;
      [|split; [reflexivity|]; split; [reflexivity|]; exists [];
        rewrite app_nil_r; split; [reflexivity|]; split;
        [reflexivity|constructor]].
    destruct (is_open (ready h0 (fst e))) eqn:Eo;
      [|split; [reflexivity|]; split; [reflexivity|]; exists [];
        rewrite app_nil_r; split; [reflexivity|]; split;
        [reflexivity|constructor]].
    split; [reflexivity|]. split; [reflexivity|].
    eexists. split; [reflexivity|]. split; [reflexivity|].
    constructor; [|constructor]. simpl.
    change (ready h1 (fst e) = OPEN). rewrite R.
    apply is_open_true, Eo. }
  destruct (forEach_projection receipt g f h0 Hbody (clients h) h Hs Hc)
    as (S1 & C1 & L & O & P & F).
  split; [exact S1|]. split; [exact C1|]. split.
  - apply (forEach_frame console_errors). intros e h1. subst f. cbv beta.
    destruct (strict_eq (userId (snd e)) uid); [|reflexivity].
    destruct (is_open (ready h1 (fst e))); reflexivity.
  - exists L. split; [exact O|]. split; [|exact F]. rewrite P.
    unfold open_entries. rewrite Hc. subst g. clear.
    induction (clients h0) as [|e l IH]; simpl; [reflexivity|].
    destruct (strict_eq (userId (snd e)) uid && is_open (ready h0 (fst e)));
      simpl; rewrite IH; reflexivity.
Qed.

Lemma activeUserIds_acc (m : list (conn * ClientInfo)) (acc : list jsval) :
  let ids := fold_left
               (fun ids e =>
                  if truthy (userId (snd e))
                  then if existsb (strict_eq (userId (snd e))) ids then ids
                       else ids ++ [userId (snd e)]
                  else ids) m acc in
  (ForallOrdPairs (fun a b => strict_eq a b = false) acc ->
   ForallOrdPairs (fun a b => strict_eq a b = false) ids)
  /\ (forall a, In a ids <->
                In a acc
                \/ exists e, In e m /\ userId (snd e) = a /\ truthy a = true).
Proof.
  revert acc. induction m as [|e m IH]; intros acc ids; subst ids; simpl.
  - split; [auto|]. intros a. split; [auto|].
    intros [H|[e [[] _]]]. exact H.
  - set (acc' := if truthy (userId (snd e))
                 then if existsb (strict_eq (userId (snd e))) acc then acc
                      else acc ++ [userId (snd e)]
                 else acc).
    destruct (IH acc') as [IH1 IH2]. split.
    + intros Hp. apply IH1.
      subst acc'. destruct (truthy (userId (snd e))); [|exact Hp].
      destruct (existsb (strict_eq (userId (snd e))) acc) eqn:Ex;
        [exact Hp|].
      clear - Hp Ex. induction Hp as [|a l Ha Hp IHp]; simpl.
      * constructor; constructor.
      * simpl in Ex. apply orb_false_iff in Ex. destruct Ex as [E1 E2].
        constructor; [|apply IHp, E2].
        apply Forall_app. split; [exact Ha|].
        constructor; [|constructor].
        rewrite strict_eq_sym. exact E1.
    + intros a. rewrite IH2. subst acc'. split.
      * intros [Ha|[e' [He' Hx]]].
        -- destruct (truthy (userId (snd e))) eqn:T; [|auto].
           destruct (existsb (strict_eq (userId (snd e))) acc); [auto|].
           apply in_app_or in Ha. destruct Ha as [Ha|[<-|[]]]; [auto|].
           right. exists e. auto.
        -- right. exists e'. split; [right; exact He'|exact Hx].
      * intros [Ha|[e' [[<-|He'] [Hx T]]]].
        -- left. destruct (truthy (userId (snd e))); [|exact Ha].
           destruct (existsb (strict_eq (userId (snd e))) acc); [exact Ha|].
           apply in_or_app. auto.
        -- left. rewrite Hx, T.
           destruct (existsb (strict_eq a) acc) eqn:Ex.
           ++ apply existsb_exists in Ex. destruct Ex as [b [Hb Eb]].
              apply strict_eq_true_eq in Eb. subst b. exact Hb.
           ++ apply in_or_app. right. left. reflexivity.
        -- right. exists e'. auto.
Qed.

Lemma assist_user_spec (uid : jsval) (g : generation) (h0 h : Hub) :
  sockets h = sockets h0 -> clients h = clients h0 ->
  let h' := assist_user clock date_now js_string uid g h in
  sockets h' = sockets h /\ clients h' = clients h
  /\ exists L, outbox h' = outbox h ++ L
               /\ map receipt L
                  = match g with
                    | Generated m =>
                        map (fun c => (c, JStr m)) (open_entries h0 uid)
                    | _ => []
                    end
               /\ Forall (fun s => state_at_send s = OPEN) L.
Proof.
  intros Hs Hc h'. subst h'. destruct g as [| |m]; simpl.
  - split; [reflexivity|]. split; [reflexivity|]. exists [].
    rewrite app_nil_r. split; [reflexivity|]. split;
      [reflexivity|constructor].
  - split; [reflexivity|]. split; [reflexivity|]. exists [].
    rewrite app_nil_r. split; [reflexivity|]. split;
      [reflexivity|constructor].
  - destruct (deliver_assistant_message_spec uid m h0 h Hs Hc)
      as (S1 & C1 & _ & L & O & P & F).
    split; [exact S1|]. split; [exact C1|]. exists L. auto.
Qed.

(** X25. One cycle of periodic assistant messages, run without
    interruption. Every user id bound to some connection (and truthy) is
    handled exactly once, however many devices the user has. Each open
    connection bound to a user whose text was generated receives that text,
    once, on a socket that is open; a user without record and a user whose
    lookups failed get nothing, and neither stops the users after them.
    The bound user ids are primitive values, as [===] on them is read. *)
Theorem assistant_cycle_serves_each_user_once
        (outcome : jsval -> generation) (h : Hub) :
  forallb (fun e => primitive (userId (snd e))) (clients h) = true ->
  let ids := activeUserIds h in
  let h' := sendPeriodicMessagesToAllUsers clock date_now js_string outcome h in
  ForallOrdPairs (fun a b => strict_eq a b = false) ids
  /\ (forall a, In a ids <->
                exists e, In e (clients h) /\ userId (snd e) = a
                          /\ truthy a = true)
  /\ map receipt (new_sends h h')
     = flat_map (fun uid => match outcome uid with
                            | Generated m =>
                                map (fun c => (c, JStr m)) (open_entries h uid)
                            | _ => []
                            end) ids
  /\ Forall (fun s => state_at_send s = OPEN) (new_sends h h')
  /\ clients h' = clients h.
Proof.
  intros _ ids h'.
  destruct (activeUserIds_acc (clients h) []) as [A1 A2].
  cbv zeta in A1, A2. fold (activeUserIds h) in A1, A2. fold ids in A1, A2.
  split; [apply A1; constructor|]. split.
  { intros a. rewrite A2. split; [intros [[]|H]; exact H|auto]. }
  subst h'. unfold sendPeriodicMessagesToAllUsers. fold ids.
  assert (G : forall l h1, sockets h1 = sockets h -> clients h1 = clients h ->
              let h2 := fold_left
                          (fun h0 uid =>
                             assist_user clock date_now js_string uid
                                         (outcome uid) h0) l h1 in
              clients h2 = clients h
              /\ exists L, outbox h2 = outbox h1 ++ L
                   /\ map receipt L
                      = flat_map
                          (fun uid => match outcome uid with
                                      | Generated m =>
                                          map (fun c => (c, JStr m))
                                              (open_entries h uid)
                                      | _ => []
                                      end) l
                   /\ Forall (fun s => state_at_send s = OPEN) L).
  { induction l as [|uid l IH]; intros h1 Hs Hc; simpl.
    - split; [exact Hc|]. exists []. rewrite app_nil_r.
      split; [reflexivity|]. split; [reflexivity|constructor].
    - destruct (assist_user_spec uid (outcome uid) h h1 Hs Hc)
        as (S1 & C1 & L1 & O1 & P1 & F1).
      destruct (IH _ (eq_trans S1 Hs) (eq_trans C1 Hc))
        as (C2 & L2 & O2 & P2 & F2).
      split; [exact C2|]. exists (L1 ++ L2).
      rewrite O2, O1, app_assoc, map_app, P1, P2.
      split; [reflexivity|]. split; [reflexivity|].
      apply Forall_app. auto. }
  destruct (G ids h eq_refl eq_refl) as (C & L & O & P & F).
  rewrite (new_sends_app _ _ _ O). auto.
Qed.

End BotExtras.

(** * The story-like route *)

Lemma emits_nothing {B : Type} (proj : sent -> B) (h : Hub) :
  emits proj h h [].
Proof.
  split; [reflexivity|]. split; [reflexivity|]. exists [].
  rewrite app_nil_r. split; [reflexivity|]. split; [reflexivity|constructor].
Qed.

Lemma emits_silent_after {B : Type} (proj : sent -> B) (h1 h2 h3 : Hub)
      (out : list B) :
  emits proj h1 h2 out ->
  sockets h3 = sockets h2 -> clients h3 = clients h2 ->
  outbox h3 = outbox h2 ->
  emits proj h1 h3 out.
Proof.
  intros (S1 & C1 & l & O & P & F) E1 E2 E3.
  split; [congruence|]. split; [congruence|]. exists l.
  rewrite E3. auto.
Qed.

Lemma emits_send_after {B : Type} (proj : sent -> B) (h1 h2 : Hub)
      (out : list B) (c : conn) (b : jsval) :
  emits proj h1 h2 out -> ready h1 c = OPEN ->
  emits proj h1 (ws_send c b h2) (out ++ [proj (mkSent c OPEN b)]).
Proof.
  intros (S1 & C1 & l & O & P & F) Ho.
  split; [exact S1|]. split; [exact C1|].
  exists (l ++ [mkSent c OPEN b]). split; [|split].
  - unfold ws_send, ready. cbn [outbox with_outbox]. rewrite S1.
    fold (ready h1 c). rewrite Ho, O, app_assoc. reflexivity.
  - rewrite map_app, P. reflexivity.
  - apply Forall_app. split; [exact F|]. constructor; [reflexivity|constructor].
Qed.

Section StoryLikeExtras.

Variable clock : nat -> string.
Variable like_id : nat -> string.

(** X26. Liking a story over HTTP: every open connection gets one
    [story-liked] envelope; the open connections bound to the story's owner
    get a [like-notification] right after it, unless the owner likes their
    own story, in which case nobody is notified. Every send is made on an
    open socket. The count reported is that of the row [likeStory]
    returned: one more than before. An unknown story answers 404 and a
    storage failure 500, both without any envelope. *)
Theorem story_like_notifies_the_owner_only
        (me : User) (storyId : Z) (story : Story) (h : Hub) :
  let res := fst (api_story_like clock like_id (Some me) storyId
                                 (Some (Some story)) h) in
  let h' := snd (api_story_like clock like_id (Some me) storyId
                                (Some (Some story)) h) in
  let owner_notified c :=
    open_bound_to h (JNum (story_userId story)) c
    && negb (story_userId story =? id me) in
  map kind (new_sends h h')
  = flat_map (fun c =>
                if is_open (ready h c)
                then (c, JStr "story-liked")
                     :: (if owner_notified c
                         then [(c, JStr "like-notification")] else [])
                else []) (wss_clients h)
  /\ Forall (fun s => state_at_send s = OPEN) (new_sends h h')
  /\ (story_userId story = id me ->
      forall s, In s (new_sends h h') ->
                snd (kind s) = JStr "story-liked")
  /\ res = mkResponse 200 (JObj [ ("success", JBool true);
                                  ("likes", JNum (likes_or_zero story)) ])
  /\ (forall tbl uid before,
        hd_error (stories_by_id storyId tbl) = Some before ->
        fst (likeStory storyId uid tbl) = Some story ->
        likes_or_zero story = likes_or_zero before + 1)
  /\ (forall liked, liked = None \/ liked = Some None ->
        snd (api_story_like clock like_id (Some me) storyId liked h) = h
        /\ (status_code
              (fst (api_story_like clock like_id (Some me) storyId liked h))
            = match liked with None => 500 | Some _ => 404 end)%nat).
Proof.
  intros res h' owner_notified. subst res h'. unfold api_story_like.
  cbn [fst snd].
  set (f := fun (client : conn) (h1 : Hub) => _).
  set (g := fun c : conn =>
              if is_open (ready h c)
              then (c, JStr "story-liked")
                   :: (if owner_notified c
                       then [(c, JStr "like-notification")] else [])
              else []).
  assert (Hbody : forall c h1, sockets h1 = sockets h ->
                    clients h1 = clients h -> emits kind h1 (f c h1) (g c)).
  { intros c h1 E1 E2. subst f g owner_notified. cbv beta.
    assert (R : ready h1 c = ready h c)
      by (unfold ready; rewrite E1; reflexivity).
    rewrite R. unfold open_bound_to.
    destruct (is_open (ready h c)) eqn:Eo; [|apply emits_nothing].
    apply is_open_true in Eo. rewrite <- R in Eo.
    unfold toISOString. cbv beta iota zeta.
    set (hA := with_clock_reads (S (clock_reads h1)) h1).
    set (p := story_liked storyId me story (clock (clock_reads h1))).
    assert (A : emits kind h1 (ws_send c p hA) [(c, JStr "story-liked")]).
    { apply (emits_send_after kind h1 hA [] c p); [|exact Eo].
      apply (emits_silent_after kind h1 h1 hA []);
        [apply emits_nothing|reflexivity..]. }
    change (clients (ws_send c p hA)) with (clients h1). rewrite E2.
    cbn [andb].
    destruct (clients_get c (clients h)) as [info|]; [|exact A].
    destruct (strict_eq (userId info) (JNum (story_userId story))
              && negb (story_userId story =? id me)); [|exact A].
    match goal with
    | |- emits _ _ (ws_send c ?q ?hD) _ =>
        apply (emits_send_after kind h1 hD [(c, JStr "story-liked")] c q);
          [|exact Eo]
    end.
    apply (emits_silent_after kind h1 (ws_send c p hA) _ _ A); reflexivity. }
  assert (Hbody' : forall c h1, sockets h1 = sockets h ->
                     clients h1 = clients h ->
                     sockets (f c h1) = sockets h1
                     /\ clients (f c h1) = clients h1
                     /\ exists l, outbox (f c h1) = outbox h1 ++ l
                          /\ map kind l = g c
                          /\ Forall (fun s => state_at_send s = OPEN) l)
    by exact Hbody.
  destruct (forEach_projection kind g f h Hbody' (wss_clients h) h
                               eq_refl eq_refl)
    as (_ & _ & L & O & P & F).
  rewrite (new_sends_app _ _ _ O).
  split; [exact P|]. split; [exact F|]. split; [|split; [|split]].
  - intros Hself s Hs. apply (in_map kind) in Hs. rewrite P in Hs.
    apply in_flat_map in Hs. destruct Hs as [c [_ Hs]]. subst g. cbv beta in Hs.
    destruct (is_open (ready h c)); [|contradiction].
    subst owner_notified. cbv beta in Hs.
    rewrite Hself, Z.eqb_refl, andb_false_r in Hs.
    destruct Hs as [<-|[]]. reflexivity.
  - reflexivity.
  - intros tbl uid before Hb Hl. unfold likeStory in Hl. rewrite Hb in Hl.
    cbn [fst] in Hl.
    rewrite stories_by_id_update_same in Hl by reflexivity.
    rewrite hd_error_map, Hb in Hl. cbn [option_map] in Hl.
    injection Hl as <-. reflexivity.
  - intros liked [->| ->]; split; reflexivity.
Qed.

End StoryLikeExtras.

(** * The further properties on the concrete environment *)

Lemma memory_db_honours_limit (tbl : list User) (cts : list Contact) :
  honours_limit (memory_db tbl cts).
Proof.
  intros q rows H. destruct q as [n|p n|uid n]; cbn in H.
  - injection H as <-. apply firstn_le_length.
  - injection H as <-. apply firstn_le_length.
  - destruct uid; try discriminate. injection H as <-. apply firstn_le_length.
Qed.

Lemma hub_one_device_well_formed : well_formed hub_one_device.
Proof.
  split; [|split].
  - change (NoDup [1%nat; 2%nat; 3%nat]).
    repeat constructor; simpl; intuition discriminate.
  - intros c Hc. change (In c [1%nat; 2%nat; 3%nat]) in Hc.
    destruct Hc as [<-|[<-|[<-|[]]]]; left; reflexivity.
  - intros c Hc. change (In c [1%nat; 3%nat]) in Hc.
    change (In c [1%nat; 2%nat; 3%nat]).
    destruct Hc as [<-|[<-|[]]]; simpl; auto.
Qed.

(** Connection 2 of the one-device hub is not authenticated: its direct
    message is answered by the error envelope alone. *)
Lemma unauthenticated_frame_witness :
  clients_get 2%nat (clients hub_one_device) = None
  /\ new_sends hub_one_device
       (on_message sample_clock sample_id 2%nat
                   (Parsed (direct_message 7 "hi")) hub_one_device)
     = [mkSent 2%nat OPEN not_authenticated].
Proof.
  split; [reflexivity|].
  destruct (unauthenticated_frame_is_rejected sample_clock sample_id
              hub_one_device 2%nat (direct_message 7 "hi")
              eq_refl eq_refl) as (E & _).
  exact E.
Defined.

(** "ann" authenticates on connection 2: that connection is bound to her,
    connection 3 stays bound to "bea". *)
Lemma auth_binds_witness :
  obj_get "type" (auth_of 7 "ann") = JStr "auth"
  /\ clients_get 2%nat
       (clients (on_message sample_clock sample_id 2%nat
                            (Parsed (auth_of 7 "ann")) hub_one_device))
     = Some ann
  /\ clients_get 3%nat
       (clients (on_message sample_clock sample_id 2%nat
                            (Parsed (auth_of 7 "ann")) hub_one_device))
     = Some bea.
Proof.
  split; [reflexivity|].
  destruct (auth_binds_its_connection_only sample_clock sample_id
              hub_one_device 2%nat (auth_of 7 "ann") eq_refl)
    as (E1 & E2 & _).
  split; [exact E1|]. rewrite E2; [reflexivity|discriminate].
Defined.

(** A direct message of "bea" leaves the three bindings as they were. *)
Lemma only_auth_changes_bindings_witness :
  clients (on_message sample_clock sample_id 3%nat
                      (Parsed (direct_message 7 "hi")) hub_two_devices)
  = [ (1%nat, ann); (3%nat, bea); (2%nat, ann) ].
Proof.
  rewrite (only_auth_changes_bindings sample_clock sample_id hub_two_devices
             3%nat (Parsed (direct_message 7 "hi"))).
  - reflexivity.
  - intros data H. injection H as <-. reflexivity.
Defined.

(** A typing indicator of "bea" for user 7 reaches both connections of
    "ann". *)
Lemma targeted_frames_witness :
  clients_get 3%nat (clients hub_two_devices) = Some bea
  /\ map to (new_sends hub_two_devices
               (on_message sample_clock sample_id 3%nat
                           (Parsed (typing_indicator 7)) hub_two_devices))
     = [1%nat; 2%nat].
Proof.
  split; [reflexivity|].
  rewrite (targeted_frames_reach_target_or_vanish sample_clock sample_id
             hub_two_devices 3%nat bea (typing_indicator 7) eq_refl
             (or_introl eq_refl)).
  reflexivity.
Defined.

(** "bea" likes post 5 of user 7: both connections of "ann" are told. *)
Lemma owner_notifications_witness :
  clients_get 3%nat (clients hub_two_devices) = Some bea
  /\ map to (new_sends hub_two_devices
               (on_message sample_clock sample_id 3%nat
                           (Parsed (like_post 5 7)) hub_two_devices))
     = [1%nat; 2%nat].
Proof.
  split; [reflexivity|].
  rewrite (owner_notifications_need_content_and_owner sample_clock sample_id
             hub_two_devices 3%nat bea (like_post 5 7) true eq_refl
             (or_introl (conj eq_refl eq_refl))).
  reflexivity.
Defined.

(** A [reaction] frame of "bea" reaches connections 1 and 2, not her own. *)
Lemma unhandled_types_witness :
  existsb (fun t => strict_eq (obj_get "type" (reaction "+1")) (JStr t))
          handled_types = false
  /\ map to (new_sends hub_two_devices
               (on_message sample_clock sample_id 3%nat
                           (Parsed (reaction "+1")) hub_two_devices))
     = [1%nat; 2%nat].
Proof.
  split; [reflexivity|].
  destruct (unhandled_types_are_broadcast sample_clock sample_id
              hub_two_devices 3%nat bea (reaction "+1")
              eq_refl eq_refl eq_refl eq_refl) as (E & _).
  rewrite E. reflexivity.
Defined.

(** "bea" searches for "bob": the two matching rows go to connection 3. *)
Lemma search_results_witness :
  searchUsers ascii_trim ascii_lower (JStr "bob") (memory_db sample_users [])
  = Some [ plain_user 2 "bob" "$2b$10$bobhash";
           plain_user 3 "bobby" "$2b$10$bobbyhash" ]
  /\ map to (new_sends hub_two_devices
               (handleSearchQuery ascii_trim ascii_lower 3%nat bea
                  (JStr "bob") (memory_db sample_users []) hub_two_devices))
     = [3%nat].
Proof.
  split; [reflexivity|].
  destruct (search_results_go_to_requester_only ascii_trim ascii_lower
              hub_two_devices 3%nat bea (JStr "bob")
              (memory_db sample_users [])
              [ plain_user 2 "bob" "$2b$10$bobhash";
                plain_user 3 "bobby" "$2b$10$bobbyhash" ] eq_refl)
    as (E & _).
  rewrite E. reflexivity.
Defined.

(** The in-memory engine honours [LIMIT]: a search for "bob" returns at
    most 20 rows. *)
Lemma searchUsers_is_bounded_witness :
  honours_limit (memory_db sample_users [])
  /\ forall rows,
       searchUsers ascii_trim ascii_lower (JStr "bob")
                   (memory_db sample_users []) = Some rows ->
       (List.length rows <= 20)%nat.
Proof.
  split; [apply memory_db_honours_limit|].
  destruct (searchUsers_is_bounded ascii_trim ascii_lower (JStr "bob")
              (memory_db sample_users [])
              (memory_db_honours_limit sample_users []))
    as (_ & B & _).
  intros rows H. apply (B "bob" rows eq_refl); [discriminate|discriminate|exact H].
Defined.

(** "ann" accepts contact row 4, which points to user 9: her two
    connections and the one of "bea" are told. *)
Lemma contact_status_change_witness :
  run_update_contact (memory_db sample_users sample_contacts)
                     (JNum 4) (JStr "accepted")
  = Some sample_contacts
  /\ map to (new_sends hub_two_devices
               (contact_status_update sample_clock 1%nat ann (JNum 4)
                  (JStr "accepted") (memory_db sample_users sample_contacts)
                  hub_two_devices))
     = [1%nat; 2%nat; 3%nat].
Proof.
  split; [reflexivity|].
  destruct (contact_status_change_reaches_both_parties sample_clock
              hub_two_devices 1%nat ann (JNum 4) (JStr "accepted")
              (memory_db sample_users sample_contacts) sample_contacts
              eq_refl eq_refl) as (E & _).
  unfold sample_contacts in E |- *. rewrite E. reflexivity.
Defined.


(** A fourth connection joins the one-device hub. *)
Lemma new_connection_witness :
  mem 4%nat (map fst (sockets hub_one_device)) = false
  /\ map to (sample_sent_by (Connection 4%nat) hub_one_device) = [4%nat]
  /\ clients_get 4%nat
       (clients (sample_step (Connection 4%nat) hub_one_device)) = None.
Proof.
  split; [reflexivity|].
  destruct (new_connection_is_greeted_unbound sample_clock sample_id
              ascii_trim ascii_lower hub_one_device 4%nat
              hub_one_device_well_formed eq_refl) as (E & _ & _ & N).
  split; [|exact N]. unfold sample_sent_by. rewrite E. reflexivity.
Defined.

(** The greeting of a fourth connection is sent on an open socket. *)
Lemma sends_meet_open_sockets_witness :
  let s := mkSent 4%nat OPEN
             (JObj [ ("type", JStr "connection"); ("status", JStr "connected");
                     ("time", JStr (sample_clock 3)) ]) in
  In s (sent_by sample_clock sample_id ascii_trim ascii_lower
                (Connection 4%nat) hub_one_device)
  /\ (state_at_send s = OPEN
      \/ exists i db ws info cid stat,
           Connection 4%nat = Settle i db
           /\ nth_error (pending hub_one_device) i
              = Some (ContactTask ws info cid stat)
           /\ run_update_contact db cid stat = None
           /\ s = mkSent ws (ready hub_one_device ws) contact_status_error).
Proof.
  intros s.
  assert (H : In s (sent_by sample_clock sample_id ascii_trim ascii_lower
                            (Connection 4%nat) hub_one_device))
    by (vm_compute; left; reflexivity).
  split; [exact H|].
  exact (sends_meet_open_sockets sample_clock sample_id ascii_trim ascii_lower
           (Connection 4%nat) hub_one_device s H).
Defined.

(** Closing connection 1 of the two-device hub. *)
Lemma closed_connection_witness :
  In 1%nat (wss_clients hub_two_devices)
  /\ wss_clients (sample_step (Close 1%nat) hub_two_devices) = [2%nat; 3%nat]
  /\ clients_get 1%nat (clients (sample_step (Close 1%nat) hub_two_devices))
     = None.
Proof.
  assert (H : In 1%nat (wss_clients hub_two_devices)) by (left; reflexivity).
  split; [exact H|]. split; [reflexivity|].
  destruct (closed_connection_is_forgotten sample_clock sample_id ascii_trim
              ascii_lower 1%nat hub_two_devices H) as (_ & E & _).
  exact E.
Defined.

(** One assistant cycle on the two-device hub: the text for user 7 goes
    to connections 1 and 2, once each; "bea" has no record and gets
    nothing. *)
Lemma assistant_cycle_witness :
  activeUserIds hub_two_devices = [JNum 7; JNum 9]
  /\ map receipt
       (new_sends hub_two_devices
          (sendPeriodicMessagesToAllUsers sample_clock sample_now
             (fun _ => "7") tip_for_ann hub_two_devices))
     = [ (1%nat, JStr "Try a filter!"); (2%nat, JStr "Try a filter!") ].
Proof.
  split; [reflexivity|].
  destruct (assistant_cycle_serves_each_user_once sample_clock sample_now
              (fun _ => "7") tip_for_ann hub_two_devices eq_refl)
    as (_ & _ & E & _).
  rewrite E. reflexivity.
Defined.
